(** * A book catalogue served over HTTP: the request handlers of [main.py]

    The development embeds the four Flask views of [main.py] ([home], [add],
    [edit], [delete]) as functions over an explicit storage session, together
    with the parts of Python they lean on ([str.strip], [float], float
    comparison), and proves properties of the catalogue reachable through
    them.

    Conventions of the embedding:
    - a text ([str]) is a [string]; its characters are the code points
      below 256;
    - a [float] is a binary64 value, written as a [spec_float] with
      precision 53 and maximal exponent 1024;
    - the [book] table is a finite map from primary key to row;
    - [db.session] holds two tables, the rows of [books.db] and the rows as
      the open transaction would leave them, and the rows it has to write;
    - [db.session.commit()] raises when a row to write has a NaN rating
      (the column is NOT NULL) and when the storage fails for a reason of
      its own, which is an input of each view;
    - [App.dispatch] is the routing of a request to its view;
      [App.full_dispatch_request] puts the token check of [CSRFProtect]
      in front of it. *)

From Stdlib Require Import ZArith String Ascii SpecFloat List Bool Sorting.Sorted OrdersEx.
From stdpp Require Import gmap strings list sorting relations.

Local Open Scope string_scope.
Local Open Scope Z_scope.

(** ** Python texts *)

Module PyStr.

(** [str.isspace] on one character, for code points below 256: the
    characters of category [Zs] or of bidirectional class [WS], [B], [S]. *)
Definition isspace (c : ascii) : bool :=
  let n := N_of_ascii c in
  ((9 <=? n) && (n <=? 13) || (28 <=? n) && (n <=? 32)
   || (n =? 133) || (n =? 160))%N.

Fixpoint lstrip (s : string) : string :=
  match s with
  | EmptyString => EmptyString
  | String c s' => if isspace c then lstrip s' else s
  end.

Fixpoint rstrip (s : string) : string :=
  match s with
  | EmptyString => EmptyString
  | String c s' =>
      match rstrip s' with
      | EmptyString => if isspace c then EmptyString else String c EmptyString
      | r => String c r
      end
  end.

(** [s.strip()] *)
Definition strip (s : string) : string := rstrip (lstrip s).

(** Truth value of a text: [not s] holds of the empty text only. *)
Definition truthy (s : string) : bool :=
  match s with EmptyString => false | String _ _ => true end.

(** Truth value of [d.get(key)], which is [None] when the key is absent. *)
Definition truthy_opt (o : option string) : bool :=
  match o with None => false | Some s => truthy s end.

(** ASCII lower-casing of one character. *)
Definition tolower (c : ascii) : ascii :=
  let n := N_of_ascii c in
  if ((65 <=? n) && (n <=? 90))%N then ascii_of_N (n + 32) else c.

End PyStr.

(** ** Python floats *)

Module PyFloat.

Definition prec : Z := 53.
Definition emax : Z := 1024.

(** The float of a (small) Python [int], as the comparisons [rating < 0]
    and [rating > 10] see their right operand. *)
Definition of_int (z : Z) : spec_float := binary_normalize prec emax z 0 false.

(** [x < y] and [x > y] on floats: false as soon as one side is a NaN. *)
Definition lt (x y : spec_float) : bool := SFltb x y.
Definition gt (x y : spec_float) : bool := SFltb y x.
Definition le (x y : spec_float) : bool := SFleb x y.

(** *** Reading a decimal literal *)

Definition is_digit (c : ascii) : bool :=
  let n := N_of_ascii c in ((48 <=? n) && (n <=? 57))%N.

Definition digit_value (c : ascii) : Z := Z.of_N (N_of_ascii c) - 48.

(** Reads the longest run of digits at the head of [l], continuing the
    number [acc]; returns the number, how many digits were read, and what
    is left. *)
Fixpoint digits (acc : Z) (n : Z) (l : list ascii) : Z * Z * list ascii :=
  match l with
  | c :: l' =>
      if is_digit c then digits (10 * acc + digit_value c) (n + 1) l'
      else (acc, n, l)
  | [] => (acc, n, l)
  end.

(** An optional sign: [true] for [-]. *)
Definition sign (l : list ascii) : bool * list ascii :=
  match l with
  | "+"%char :: l' => (false, l')
  | "-"%char :: l' => (true, l')
  | _ => (false, l)
  end.

(** Underscores may group digits: each must stand between two digits.
    Returns the text without them, or [None] on a misplaced one. *)
Fixpoint strip_underscores (prev : option ascii) (l : list ascii)
  : option (list ascii) :=
  match l with
  | [] =>
      match prev with
      | Some "_"%char => None
      | _ => Some []
      end
  | c :: l' =>
      if Ascii.eqb c "_" then
        match prev with
        | Some p => if is_digit p then strip_underscores (Some c) l' else None
        | None => None
        end
      else
        match prev with
        | Some "_"%char =>
            if is_digit c then cons c <$> strip_underscores (Some c) l'
            else None
        | _ => cons c <$> strip_underscores (Some c) l'
        end
  end.

(** [digitpart ['.' [digitpart]] | '.' digitpart], then an optional
    exponent [('e'|'E') [sign] digitpart], up to the end of the text.
    The literal denotes [m * 10 ^ e] for the returned [(m, e)]. *)
Definition decimal (l : list ascii) : option (Z * Z) :=
  let '(ip, ni, r1) := digits 0 0 l in
  let '(m, nf, r2) :=
    match r1 with
    | "."%char :: r => digits ip 0 r
    | _ => (ip, 0, r1)
    end in
  if ni + nf =? 0 then None
  else
    match r2 with
    | [] => Some (m, - nf)
    | c :: r3 =>
        if Ascii.eqb (PyStr.tolower c) "e" then
          let '(neg, r4) := sign r3 in
          let '(x, nx, r5) := digits 0 0 r4 in
          if nx =? 0 then None
          else
            match r5 with
            | [] => Some (m, (if neg then - x else x) - nf)
            | _ => None
            end
        else None
    end.

(** The binary64 value nearest to [m * 10 ^ e] (ties to even). *)
Definition round_decimal (neg : bool) (m e : Z) : spec_float :=
  match m with
  | Zpos p =>
      if 0 <=? e then binary_round prec emax neg (p * Z.to_pos (10 ^ e))%positive 0
      else
        let '(q, e', l) := SFdiv_core_binary prec emax (Zpos p) 0 (10 ^ (- e)) 0 in
        binary_round_aux prec emax neg q e' l
  | _ => S754_zero neg
  end.

(** [inf], [infinity] and [nan], in any letter case. *)
Definition special (neg : bool) (l : list ascii) : option spec_float :=
  let w := string_of_list_ascii (map PyStr.tolower l) in
  if String.eqb w "inf" || String.eqb w "infinity" then Some (S754_infinity neg)
  else if String.eqb w "nan" then Some S754_nan
  else None.

(** [float(s)] for a text [s]: [None] stands for [ValueError]. *)
Definition float (s : string) : option spec_float :=
  match strip_underscores None (list_ascii_of_string (PyStr.strip s)) with
  | None => None
  | Some l =>
      let '(neg, body) := sign l in
      match decimal body with
      | Some (m, e) => Some (round_decimal neg m e)
      | None => special neg body
      end
  end.

End PyFloat.

(** ** The [book] table and the ORM session *)

(** A row of the table: the columns other than the primary key. *)
Record Row := { row_title : string; row_author : string; row_rating : spec_float }.

(** A loaded [Book] object. *)
Record Book := { id : Z; title : string; author : string; rating : spec_float }.

Definition load (k : Z) (r : Row) : Book :=
  {| id := k; title := row_title r; author := row_author r; rating := row_rating r |}.

Definition set_rating (x : spec_float) (r : Row) : Row :=
  {| row_title := row_title r; row_author := row_author r; row_rating := x |}.

(** Result of [scalar_one_or_none()]. *)
Inductive Scalar :=
| NoRow
| OneRow (b : Book)
| MultipleResultsFound.

Definition scalar_one_or_none (l : list Book) : Scalar :=
  match l with
  | [] => NoRow
  | [b] => OneRow b
  | _ => MultipleResultsFound
  end.

(** Order of [ORDER BY title]: texts compared character by character. *)
Definition title_le (a b : Book) : Prop := String.leb (title a) (title b) = true.

Global Instance title_le_dec : RelDecision title_le.
Proof. intros a b. unfold title_le. apply _. Defined.

Module Session.

(** What the [rating] column ([Float], in the SQLite file [books.db])
    gives back for a float written to it: the float itself, except that a
    zero comes back as [0.0] whatever its sign (a float that is a whole
    number is kept as an integer). *)
Definition real (x : spec_float) : spec_float :=
  match x with
  | S754_zero _ => S754_zero false
  | _ => x
  end.

(** [nullable=False] on [rating]: a NaN is bound as NULL, which the column
    refuses. *)
Definition not_null (r : Row) : bool :=
  match row_rating r with
  | S754_nan => false
  | _ => true
  end.

(** [database]: the rows stored in [books.db]; [pending]: the rows as the
    open transaction leaves them in the file if it is committed; [written]:
    the rows, as the objects hold them, that the flush has to INSERT or
    UPDATE. *)
Record t := {
  database : gmap Z Row;
  pending : gmap Z Row;
  written : list Row
}.

(** The session a request starts with. *)
Definition start (tbl : gmap Z Row) : t :=
  {| database := tbl; pending := tbl; written := [] |}.

(** Key given to an inserted row. [main.py] leaves the choice to the
    storage layer ([Integer], [primary_key=True]); the table of [books.db]
    takes one more than the largest key in use, 1 when it is empty. *)
Definition next_id (tbl : gmap Z Row) : Z :=
  1 + foldr Z.max 0 (fst <$> map_to_list tbl).

(** [db.session.add(Book(title=, author=, rating=))] *)
Definition add (r : Row) (s : t) : t :=
  {| database := database s;
     pending :=
       <[next_id (pending s) := set_rating (real (row_rating r)) r]> (pending s);
     written := r :: written s |}.

(** [db.session.delete(book)] *)
Definition delete (b : Book) (s : t) : t :=
  {| database := database s;
     pending := base.delete (id b) (pending s);
     written := written s |}.

(** [book.rating = x] on a loaded object. *)
Definition assign_rating (b : Book) (x : spec_float) (s : t) : t :=
  {| database := database s;
     pending := alter (set_rating (real x)) (id b) (pending s);
     written :=
       {| row_title := title b; row_author := author b; row_rating := x |}
       :: written s |}.

(** [db.session.commit()]: [None] when it raises. It raises when a row to
    write breaks the NOT NULL constraint of [rating], and whenever the
    storage fails for a reason of its own ([ok] false). *)
Definition commit (ok : bool) (s : t) : option t :=
  if ok && forallb not_null (written s) then
    Some {| database := pending s; pending := pending s; written := [] |}
  else None.

(** [db.session.rollback()] *)
Definition rollback (s : t) : t :=
  {| database := database s; pending := database s; written := [] |}.

(** [db.session.get(Book, k)] *)
Definition get (k : Z) (s : t) : option Book := load k <$> pending s !! k.

Definition books (s : t) : list Book :=
  (fun kr => load (fst kr) (snd kr)) <$> map_to_list (pending s).

(** [db.select(Book).order_by(Book.title)], [.scalars().all()] *)
Definition select_order_by_title (s : t) : list Book :=
  merge_sort title_le (books s).

(** [db.select(Book).where(Book.title == x)] *)
Definition select_where_title (x : string) (s : t) : list Book :=
  List.filter (fun b => String.eqb (title b) x) (books s).

End Session.

(** ** Requests and responses *)

Inductive Method := GET | POST.

Record Request := {
  path : string;
  method : Method;
  form : list (string * string);   (* [request.form] *)
  args : list (string * string);   (* [request.args] *)
  token_ok : bool                  (* the request carries a valid CSRF token *)
}.

(** [d.get(key)] on a multi-dict: the first value of the key. *)
Fixpoint get (key : string) (d : list (string * string)) : option string :=
  match d with
  | [] => None
  | (k, v) :: d' => if String.eqb k key then Some v else get key d'
  end.

Inductive Endpoint := Home | Add | Edit | Delete.

Definition url_for (e : Endpoint) : string :=
  match e with
  | Home => "/"
  | Add => "/add"
  | Edit => "/edit"
  | Delete => "/delete"
  end.

(** What a template is rendered with. *)
Inductive Context :=
| NoContext
| WithBooks (books : list Book)
| WithBook (book : Book).

Inductive Response :=
| render_template (name : string) (ctx : Context)
| redirect (location : string)
| abort (status : Z).

(** What a view leaves behind: the response, the messages passed to
    [flash] (message, category) in order, and the session. *)
Record Outcome := {
  response : Response;
  flashed : list (string * string);
  session : Session.t
}.

(** ** The views *)

Module App.
Section Views.

(** How the storage layer reads the text of an identifier as a primary
    key ([None]: the text matches no key). The views hand the text over
    as it came and never look into it. *)
Variable pk_of_text : string -> option Z.

(** [db.get_or_404(Book, book_id)]: [None] stands for [abort(404)]. *)
Definition get_or_404 (book_id : string) (s : Session.t) : option Book :=
  match pk_of_text book_id with
  | Some k => Session.get k s
  | None => None
  end.

Definition home (req : Request) (s : Session.t) : Outcome :=
  let all_books := Session.select_order_by_title s in
  {| response := render_template "index.html" (WithBooks all_books);
     flashed := [];
     session := s |}.

Definition add (req : Request) (s : Session.t) (commit_ok : bool) : Outcome :=
  match method req with
  | POST =>
      let title := PyStr.strip (default "" (get "title" (form req))) in
      let author := PyStr.strip (default "" (get "author" (form req))) in
      let rating_str := PyStr.strip (default "" (get "rating" (form req))) in
      if negb (PyStr.truthy title) || negb (PyStr.truthy author)
         || negb (PyStr.truthy rating_str)
      then
        {| response := render_template "add.html" NoContext;
           flashed := [("All fields are required.", "error")];
           session := s |}
      else
        match PyFloat.float rating_str with
        | None =>
            {| response := render_template "add.html" NoContext;
               flashed := [("Rating must be a valid number.", "error")];
               session := s |}
        | Some rating =>
            if PyFloat.lt rating (PyFloat.of_int 0)
               || PyFloat.gt rating (PyFloat.of_int 10)
            then
              {| response := render_template "add.html" NoContext;
                 flashed := [("Rating must be between 0 and 10.", "error")];
                 session := s |}
            else
              match scalar_one_or_none (Session.select_where_title title s) with
              | MultipleResultsFound =>
                  {| response := abort 500; flashed := []; session := s |}
              | OneRow _ =>
                  {| response := render_template "add.html" NoContext;
                     flashed := [("A book with this title already exists.", "error")];
                     session := s |}
              | NoRow =>
                  let new_book :=
                    {| row_title := title; row_author := author;
                       row_rating := rating |} in
                  let s1 := Session.add new_book s in
                  match Session.commit commit_ok s1 with
                  | Some s2 =>
                      {| response := redirect (url_for Home);
                         flashed := [("Book added successfully!", "success")];
                         session := s2 |}
                  | None =>
                      {| response := render_template "add.html" NoContext;
                         flashed := [("An error occurred while adding the book.",
                                      "error")];
                         session := Session.rollback s1 |}
                  end
              end
        end
  | GET =>
      {| response := render_template "add.html" NoContext;
         flashed := [];
         session := s |}
  end.

Definition edit (req : Request) (s : Session.t) (commit_ok : bool) : Outcome :=
  match method req with
  | POST =>
      let book_id := get "id" (form req) in
      if negb (PyStr.truthy_opt book_id) then
        {| response := redirect (url_for Home);
           flashed := [("Invalid book ID.", "error")];
           session := s |}
      else
        match get_or_404 (default "" book_id) s with
        | None => {| response := abort 404; flashed := []; session := s |}
        | Some book_to_update =>
            let rating_str := PyStr.strip (default "" (get "rating" (form req))) in
            if negb (PyStr.truthy rating_str) then
              {| response := render_template "edit_rating.html" (WithBook book_to_update);
                 flashed := [("Rating is required.", "error")];
                 session := s |}
            else
              match PyFloat.float rating_str with
              | None =>
                  {| response :=
                       render_template "edit_rating.html" (WithBook book_to_update);
                     flashed := [("Rating must be a valid number.", "error")];
                     session := s |}
              | Some rating =>
                  if PyFloat.lt rating (PyFloat.of_int 0)
                     || PyFloat.gt rating (PyFloat.of_int 10)
                  then
                    {| response :=
                         render_template "edit_rating.html" (WithBook book_to_update);
                       flashed := [("Rating must be between 0 and 10.", "error")];
                       session := s |}
                  else
                    let s1 := Session.assign_rating book_to_update rating s in
                    match Session.commit commit_ok s1 with
                    | Some s2 =>
                        {| response := redirect (url_for Home);
                           flashed := [("Rating updated successfully!", "success")];
                           session := s2 |}
                    | None =>
                        {| response := redirect (url_for Home);
                           flashed :=
                             [("An error occurred while updating the rating.", "error")];
                           session := Session.rollback s1 |}
                    end
              end
        end
  | GET =>
      let book_id := get "id" (args req) in
      if negb (PyStr.truthy_opt book_id) then
        {| response := redirect (url_for Home);
           flashed := [("Invalid book ID.", "error")];
           session := s |}
      else
        match get_or_404 (default "" book_id) s with
        | None => {| response := abort 404; flashed := []; session := s |}
        | Some book_selected =>
            {| response := render_template "edit_rating.html" (WithBook book_selected);
               flashed := [];
               session := s |}
        end
  end.

Definition delete (req : Request) (s : Session.t) (commit_ok : bool) : Outcome :=
  let book_id := get "id" (form req) in
  if negb (PyStr.truthy_opt book_id) then
    {| response := redirect (url_for Home);
       flashed := [("Invalid book ID.", "error")];
       session := s |}
  else
    match get_or_404 (default "" book_id) s with
    | None => {| response := abort 404; flashed := []; session := s |}
    | Some book_to_delete =>
        let s1 := Session.delete book_to_delete s in
        match Session.commit commit_ok s1 with
        | Some s2 =>
            {| response := redirect (url_for Home);
               flashed :=
                 [("'" ++ title book_to_delete ++ "' has been deleted successfully!",
                   "success")];
               session := s2 |}
        | None =>
            {| response := redirect (url_for Home);
               flashed := [("An error occurred while deleting the book.", "error")];
               session := Session.rollback s1 |}
        end
    end.

(** The routes declared by [@app.route]: an unknown path is answered 404,
    a known path with a method it does not list 405. *)
Definition dispatch (req : Request) (s : Session.t) (commit_ok : bool) : Outcome :=
  if String.eqb (path req) (url_for Home) then
    match method req with
    | GET => home req s
    | POST => {| response := abort 405; flashed := []; session := s |}
    end
  else if String.eqb (path req) (url_for Add) then add req s commit_ok
  else if String.eqb (path req) (url_for Edit) then edit req s commit_ok
  else if String.eqb (path req) (url_for Delete) then
    match method req with
    | POST => delete req s commit_ok
    | GET => {| response := abort 405; flashed := []; session := s |}
    end
  else {| response := abort 404; flashed := []; session := s |}.



(** One request that reached its view, served from start to end: the table
    it leaves in [books.db]. *)
Definition serve (req : Request) (commit_ok : bool) (tbl : gmap Z Row) : gmap Z Row :=
  Session.database (session (dispatch req (Session.start tbl) commit_ok)).

(** The tables that requests can produce from the empty table. *)
Inductive reachable : gmap Z Row -> Prop :=
| reachable_empty : reachable ∅
| reachable_serve tbl req commit_ok :
    reachable tbl -> reachable (serve req commit_ok tbl).

End Views.
End App.

(** The test [rating < 0 or rating > 10] of [add] and [edit]. *)
Definition out_of_bounds (x : spec_float) : bool :=
  PyFloat.lt x (PyFloat.of_int 0) || PyFloat.gt x (PyFloat.of_int 10).

(** ** Predicates of the specification *)

(** A rating lies in the closed interval from 0 to 10. *)
Definition in_range (x : spec_float) : bool :=
  PyFloat.le (PyFloat.of_int 0) x && PyFloat.le x (PyFloat.of_int 10).

(** No two rows of the table carry the same title. *)
Definition unique_titles (tbl : gmap Z Row) : Prop :=
  forall k1 k2 r1 r2,
    tbl !! k1 = Some r1 -> tbl !! k2 = Some r2 ->
    row_title r1 = row_title r2 -> k1 = k2.

(** The identifier text names the row [r] stored under key [k]. *)
Definition resolves (pk_of_text : string -> option Z) (book_id : string)
    (tbl : gmap Z Row) (k : Z) (r : Row) : Prop :=
  pk_of_text book_id = Some k /\ tbl !! k = Some r.

(** The identifier text names no stored row. *)
Definition unresolved (pk_of_text : string -> option Z) (book_id : string)
    (tbl : gmap Z Row) : Prop :=
  forall k r, ~ resolves pk_of_text book_id tbl k r.

(** The text [part] occurs in the text [whole]. *)
Definition occurs_in (part whole : string) : Prop :=
  exists before after, whole = before ++ part ++ after.

(** A text made of blanks only (the empty text included). *)
Fixpoint blank (s : string) : bool :=
  match s with
  | EmptyString => true
  | String c s' => PyStr.isspace c && blank s'
  end.

(** What every answer of the application satisfies, for the request and
    the table it was computed from: at most one flashed message, of category
    [error] or [success]; an aborted request flashes nothing; a success is
    flashed only on a redirect to the list view, for a POST whose commit went
    through; and without a flashed success the stored table is as before. *)
Definition disciplined (req : Request) (ok : bool) (tbl : gmap Z Row) (o : Outcome)
  : Prop :=
  (flashed o = []
   \/ exists message,
        flashed o = [(message, "error")] \/ flashed o = [(message, "success")])
  /\ (forall status, response o = abort status ->
        flashed o = [] /\ (status = 404 \/ status = 405 \/ status = 500))
  /\ ((exists message, flashed o = [(message, "success")]) ->
        response o = redirect (url_for Home) /\ method req = POST /\ ok = true)
  /\ ((forall message, flashed o <> [(message, "success")]) ->
        Session.database (session o) = tbl).

(** What one request may do to the table: nothing, insert a row under the
    next key, overwrite the rating of the row under a key, or remove the row
    under a key. *)
Inductive effect (tbl : gmap Z Row) : gmap Z Row -> Prop :=
| effect_none : effect tbl tbl
| effect_insert r :
    (forall k r', tbl !! k = Some r' -> row_title r' <> row_title r) ->
    out_of_bounds (row_rating r) = false ->
    row_rating r <> S754_nan ->
    effect tbl (<[Session.next_id tbl := r]> tbl)
| effect_rating k x :
    out_of_bounds x = false ->
    x <> S754_nan ->
    effect tbl (alter (set_rating x) k tbl)
| effect_delete k : effect tbl (base.delete k tbl).

(** A reading of identifiers used in the examples: a run of decimal digits
    names the key it denotes. *)
Definition decimal_pk (s : string) : option Z :=
  match PyFloat.digits 0 0 (list_ascii_of_string s) with
  | (k, n, []) => if 0 <? n then Some k else None
  | _ => None
  end.

Definition post (p : string) (fields : list (string * string)) : Request :=
  {| path := p; method := POST; form := fields; args := []; token_ok := true |}.

Definition get_request (p : string) (query : list (string * string)) : Request :=
  {| path := p; method := GET; form := []; args := query; token_ok := true |}.

Definition add_form (t a r : string) : Request :=
  post "/add" [("title", t); ("author", a); ("rating", r)].

Definition edit_form (i r : string) : Request :=
  post "/edit" [("id", i); ("rating", r)].

Definition dune : Row :=
  {| row_title := "Dune"; row_author := "Frank Herbert";
     row_rating := S754_finite false 5348024557502464 (-49) |}.


(** ** Proof steps shared by the views *)

(** Closes a goal [a <> b] whose sides start to differ once computed. *)
Ltac differ := let E := fresh "E" in simpl; intros E; discriminate E.

(** Settles [disciplined] for an outcome given by its three fields. *)
Ltac discipline :=
  unfold disciplined; simpl;
  split;
  [ first [ left; reflexivity
          | right; eexists; left; reflexivity
          | right; eexists; right; reflexivity ]
  | split;
    [ let E := fresh "E" in
      intros ? E; first [ discriminate E | injection E as <-; split; [reflexivity | lia] ]
    | split;
      [ let E := fresh "E" in
        intros [? E]; first [ discriminate E | repeat split; assumption || reflexivity ]
      | let H := fresh "H" in
        intros H; first [ reflexivity | exfalso; eapply H; reflexivity ] ] ] ].

(** * Properties *)

(** ** Texts and their order *)

Lemma leb_trans (a b c : string) :
  String.leb a b = true -> String.leb b c = true -> String.leb a c = true.
Proof.
  unfold String.leb.
  destruct (String.compare a b) eqn:Hab; [| |discriminate]; intros _.
  - apply String.compare_eq_iff in Hab. now subst.
  - destruct (String.compare b c) eqn:Hbc; [| |discriminate]; intros _.
    + apply String.compare_eq_iff in Hbc. subst. now rewrite Hab.
    + assert (Hac : String_as_OT.lt a c).
      { transitivity b; [exact Hab | exact Hbc]. }
      unfold String_as_OT.lt in Hac.
      change (String.compare a c = Lt) in Hac. now rewrite Hac.
Qed.

Global Instance title_le_total : Total title_le.
Proof. intros a b. apply String.leb_total. Qed.

Global Instance title_le_trans : Transitive title_le.
Proof. intros a b c. apply leb_trans. Qed.

Lemma truthy_opt_Some (o : option string) :
  PyStr.truthy_opt o = true ->
  exists s, o = Some s /\ PyStr.truthy s = true /\ default "" o = s.
Proof. destruct o as [s|]; [eauto | discriminate]. Qed.

(** ** Floats: the range test of the views against the interval *)

Lemma SFcompare_antisym (x y : spec_float) :
  SFcompare x y = CompOpp <$> SFcompare y x.
Proof.
  destruct x as [sx|sx| |sx mx ex], y as [sy|sy| |sy my ey]; simpl;
    try reflexivity;
    try (destruct sx; reflexivity); try (destruct sy; reflexivity);
    try (destruct sx, sy; reflexivity).
  destruct sx, sy; simpl; try reflexivity;
    rewrite (Z.compare_antisym ey ex);
    destruct (ey ?= ex)%Z; simpl; try reflexivity;
    rewrite (Pos.compare_cont_antisym my mx Eq); simpl;
    now rewrite ?CompOpp_involutive.
Qed.

Lemma SFcompare_is_Some (x y : spec_float) :
  x <> S754_nan -> y <> S754_nan -> exists c, SFcompare x y = Some c.
Proof.
  intros Hx Hy.
  destruct x as [sx|sx| |sx mx ex], y as [sy|sy| |sy my ey];
    try congruence; simpl; eauto.
Qed.

Lemma of_int_0 : PyFloat.of_int 0 = S754_zero false.
Proof. reflexivity. Qed.

Lemma of_int_10 : PyFloat.of_int 10 = S754_finite false 5629499534213120 (-49).
Proof. vm_compute. reflexivity. Qed.

Lemma out_of_bounds_in_range (x : spec_float) :
  x <> S754_nan -> out_of_bounds x = negb (in_range x).
Proof.
  intros Hx. unfold out_of_bounds, in_range, PyFloat.lt, PyFloat.gt, PyFloat.le,
    SFltb, SFleb.
  rewrite of_int_0, of_int_10.
  rewrite (SFcompare_antisym (S754_zero false) x).
  rewrite (SFcompare_antisym (S754_finite false 5629499534213120 (-49)) x).
  destruct (SFcompare_is_Some x (S754_zero false)) as [c0 ->]; [done..|].
  destruct (SFcompare_is_Some x (S754_finite false 5629499534213120 (-49)))
    as [c10 ->]; [done..|].
  now destruct c0, c10.
Qed.


Lemma in_range_nan : in_range S754_nan = false.
Proof. reflexivity. Qed.

Lemma passes_bounds (x : spec_float) :
  out_of_bounds x = false <-> x = S754_nan \/ in_range x = true.
Proof.
  assert (Hd : x = S754_nan \/ x <> S754_nan)
    by (destruct x; (now left) || (right; discriminate)).
  destruct Hd as [->|Hx].
  - split; [now left | reflexivity].
  - rewrite (out_of_bounds_in_range x Hx). split.
    + intros H. right. now apply negb_false_iff.
    + intros [H|H]; [contradiction | now rewrite H].
Qed.

(** ** The table *)

Lemma foldr_max_ge (l : list Z) (k : Z) : k ∈ l -> k <= foldr Z.max 0 l.
Proof.
  induction l as [|x l IH]; intros Hk.
  - inversion Hk.
  - apply elem_of_cons in Hk as [->|Hk]; simpl; [lia|].
    specialize (IH Hk). lia.
Qed.

Lemma next_id_fresh (tbl : gmap Z Row) : tbl !! Session.next_id tbl = None.
Proof.
  destruct (tbl !! Session.next_id tbl) as [r|] eqn:Hr; [|reflexivity].
  exfalso. apply elem_of_map_to_list in Hr.
  assert (Hin : Session.next_id tbl ∈ (map_to_list tbl).*1).
  { apply list_elem_of_fmap. now exists (Session.next_id tbl, r). }
  apply foldr_max_ge in Hin. unfold Session.next_id in Hin. lia.
Qed.

Lemma load_inj (k k' : Z) (r r' : Row) : load k r = load k' r' -> k = k' /\ r = r'.
Proof. destruct r, r'. unfold load. simpl. intros H. now inversion H. Qed.

Lemma elem_of_books (s : Session.t) (b : Book) :
  b ∈ Session.books s <->
  exists k r, Session.pending s !! k = Some r /\ b = load k r.
Proof.
  unfold Session.books. rewrite list_elem_of_fmap. split.
  - intros [[k r] [-> Hin]]. apply elem_of_map_to_list in Hin. now exists k, r.
  - intros (k & r & Hkr & ->). exists (k, r). split; [reflexivity|].
    now apply elem_of_map_to_list.
Qed.

Lemma NoDup_books (s : Session.t) : NoDup (Session.books s).
Proof.
  unfold Session.books. apply NoDup_fmap_2_strong; [|apply NoDup_map_to_list].
  intros [k r] [k' r'] _ _ H. simpl in H. apply load_inj in H as [-> ->].
  reflexivity.
Qed.

Lemma elem_of_select_where_title (x : string) (s : Session.t) (b : Book) :
  b ∈ Session.select_where_title x s <->
  exists k r, Session.pending s !! k = Some r /\ b = load k r /\ row_title r = x.
Proof.
  unfold Session.select_where_title.
  rewrite list_elem_of_In, filter_In, <- list_elem_of_In, elem_of_books, String.eqb_eq.
  split.
  - intros [(k & r & Hkr & ->) Ht]. now exists k, r.
  - intros (k & r & Hkr & -> & Ht). split; [now exists k, r | exact Ht].
Qed.

Lemma NoDup_select_where_title (x : string) (s : Session.t) :
  NoDup (Session.select_where_title x s).
Proof.
  unfold Session.select_where_title. apply NoDup_ListNoDup, List.NoDup_filter,
    NoDup_ListNoDup, NoDup_books.
Qed.

(** No row carries the title: the query for it comes back empty. *)
Lemma select_where_title_nil (x : string) (s : Session.t) :
  Session.select_where_title x s = [] <->
  forall k r, Session.pending s !! k = Some r -> row_title r <> x.
Proof.
  split.
  - intros Hnil k r Hkr Ht.
    assert (Hin : load k r ∈ Session.select_where_title x s).
    { apply elem_of_select_where_title. now exists k, r. }
    rewrite Hnil in Hin. inversion Hin.
  - intros Hno. destruct (Session.select_where_title x s) as [|b l] eqn:Hsel;
      [reflexivity|].
    assert (Hin : b ∈ Session.select_where_title x s) by (rewrite Hsel; left).
    apply elem_of_select_where_title in Hin as (k & r & Hkr & _ & Ht).
    now destruct (Hno k r Hkr).
Qed.

(** With titles unique, the query for a title in use comes back with that
    one row. *)
Lemma select_where_title_one (x : string) (s : Session.t) (k : Z) (r : Row) :
  unique_titles (Session.pending s) ->
  Session.pending s !! k = Some r -> row_title r = x ->
  Session.select_where_title x s = [load k r].
Proof.
  intros Huniq Hkr Ht.
  assert (Hall : forall b, b ∈ Session.select_where_title x s -> b = load k r).
  { intros b (k' & r' & Hkr' & -> & Ht')%elem_of_select_where_title.
    assert (k' = k) as -> by (eapply Huniq; eauto; congruence).
    congruence. }
  assert (Hin : load k r ∈ Session.select_where_title x s).
  { apply elem_of_select_where_title. now exists k, r. }
  pose proof (NoDup_select_where_title x s) as Hnd.
  destruct (Session.select_where_title x s) as [|b [|b' l]].
  - inversion Hin.
  - f_equal. apply Hall. left.
  - exfalso. rewrite (Hall b), (Hall b') in Hnd by (repeat constructor).
    apply NoDup_cons in Hnd as [Hnd _]. apply Hnd. left.
Qed.

(** ** What the storage does with a rating *)

Lemma real_nan (x : spec_float) : Session.real x = S754_nan <-> x = S754_nan.
Proof. destruct x; simpl; split; congruence. Qed.

Lemma real_out_of_bounds (x : spec_float) :
  out_of_bounds (Session.real x) = out_of_bounds x.
Proof.
  destruct x as [[]| | |]; reflexivity.
Qed.

Lemma real_in_range (x : spec_float) : in_range (Session.real x) = in_range x.
Proof.
  destruct x as [[]| | |]; reflexivity.
Qed.

Lemma real_idempotent (x : spec_float) :
  Session.real (Session.real x) = Session.real x.
Proof. now destruct x. Qed.

Lemma not_null_rating (t a : string) (x : spec_float) :
  Session.not_null {| row_title := t; row_author := a; row_rating := x |} = true
  <-> x <> S754_nan.
Proof. unfold Session.not_null. simpl. destruct x; split; congruence. Qed.

Lemma commit_add (r : Row) (tbl : gmap Z Row) (ok : bool) :
  Session.commit ok (Session.add r (Session.start tbl))
  = if ok && Session.not_null r then
      Some (Session.start
              (<[Session.next_id tbl := set_rating (Session.real (row_rating r)) r]>
                 tbl))
    else None.
Proof. unfold Session.commit. simpl. now rewrite andb_true_r. Qed.

Lemma commit_assign_rating (b : Book) (x : spec_float) (tbl : gmap Z Row) (ok : bool) :
  Session.commit ok (Session.assign_rating b x (Session.start tbl))
  = if ok && Session.not_null
               {| row_title := title b; row_author := author b; row_rating := x |}
    then Some (Session.start (alter (set_rating (Session.real x)) (id b) tbl))
    else None.
Proof. unfold Session.commit. simpl. now rewrite andb_true_r. Qed.

Lemma commit_delete (b : Book) (tbl : gmap Z Row) (ok : bool) :
  Session.commit ok (Session.delete b (Session.start tbl))
  = if ok then Some (Session.start (base.delete (id b) tbl)) else None.
Proof. unfold Session.commit. simpl. now rewrite andb_true_r. Qed.

(** ** What a request does to the table *)

Lemma scalar_NoRow (l : list Book) : scalar_one_or_none l = NoRow -> l = [].
Proof. destruct l as [|b [|b' l]]; simpl; congruence. Qed.

Lemma add_effect (req : Request) (ok : bool) (tbl : gmap Z Row) :
  effect tbl (Session.database (session (App.add req (Session.start tbl) ok))).
Proof.
  unfold App.add. destruct (method req); [apply effect_none|].
  destruct (_ || _ || _); [apply effect_none|].
  destruct (PyFloat.float _) as [x|]; [|apply effect_none].
  destruct (_ || _) eqn:Hbounds; [apply effect_none|].
  destruct (scalar_one_or_none _) eqn:Hsel; [|apply effect_none..].
  apply scalar_NoRow in Hsel.
  cbv zeta. rewrite commit_add.
  destruct (ok && _) eqn:Hc; simpl; [|apply effect_none].
  apply andb_true_iff in Hc as [_ Hnn%not_null_rating].
  apply (effect_insert tbl (Build_Row _ _ (Session.real x))); simpl.
  - intros k r' Hk.
    exact (proj1 (select_where_title_nil _ (Session.start tbl)) Hsel k r' Hk).
  - fold (out_of_bounds x) in Hbounds. now rewrite real_out_of_bounds.
  - now rewrite real_nan.
Qed.

Lemma edit_effect pk (req : Request) (ok : bool) (tbl : gmap Z Row) :
  effect tbl (Session.database (session (App.edit pk req (Session.start tbl) ok))).
Proof.
  unfold App.edit. destruct (method req).
  - destruct (negb _); [apply effect_none|].
    destruct (App.get_or_404 _ _ _); apply effect_none.
  - destruct (negb _); [apply effect_none|].
    destruct (App.get_or_404 _ _ _) as [b|]; [|apply effect_none].
    destruct (negb _); [apply effect_none|].
    destruct (PyFloat.float _) as [x|]; [|apply effect_none].
    destruct (_ || _) eqn:Hbounds; [apply effect_none|].
    cbv zeta. rewrite commit_assign_rating.
    destruct (ok && _) eqn:Hc; simpl; [|apply effect_none].
    apply andb_true_iff in Hc as [_ Hnn%not_null_rating].
    fold (out_of_bounds x) in Hbounds.
    apply effect_rating; [now rewrite real_out_of_bounds | now rewrite real_nan].
Qed.

Lemma delete_effect pk (req : Request) (ok : bool) (tbl : gmap Z Row) :
  effect tbl (Session.database (session (App.delete pk req (Session.start tbl) ok))).
Proof.
  unfold App.delete.
  destruct (negb _); [apply effect_none|].
  destruct (App.get_or_404 _ _ _) as [b|]; [|apply effect_none].
  cbv zeta. rewrite commit_delete.
  destruct ok; simpl; [apply effect_delete | apply effect_none].
Qed.

Lemma serve_effect pk (req : Request) (ok : bool) (tbl : gmap Z Row) :
  effect tbl (App.serve pk req ok tbl).
Proof.
  unfold App.serve, App.dispatch.
  destruct (String.eqb (path req) (url_for Home)).
  { destruct (method req); apply effect_none. }
  destruct (String.eqb (path req) (url_for Add)); [apply add_effect|].
  destruct (String.eqb (path req) (url_for Edit)); [apply edit_effect|].
  destruct (String.eqb (path req) (url_for Delete)); [|apply effect_none].
  destruct (method req); [apply effect_none | apply delete_effect].
Qed.

Lemma effect_unique_titles (tbl tbl' : gmap Z Row) :
  effect tbl tbl' -> unique_titles tbl -> unique_titles tbl'.
Proof.
  intros [|r Hnew _ _|k x _ _|k] Huniq k1 k2 r1 r2 H1 H2 Ht.
  - eauto.
  - rewrite lookup_insert in H1, H2.
    destruct (decide (Session.next_id tbl = k1)) as [<-|N1],
             (decide (Session.next_id tbl = k2)) as [<-|N2]; simplify_eq.
    + reflexivity.
    + now destruct (Hnew k2 r2 H2).
    + now destruct (Hnew k1 r1 H1).
    + eauto.
  - rewrite lookup_alter in H1, H2.
    assert (Hrow : forall j rj,
               (if decide (k = j) then set_rating x <$> tbl !! k else tbl !! j)
               = Some rj ->
               exists r0, tbl !! j = Some r0 /\ row_title r0 = row_title rj).
    { intros j rj Hj. case_decide as Hkj; [subst j|eauto].
      apply fmap_Some in Hj as (r0 & Hr0 & ->). eauto. }
    apply Hrow in H1 as (a1 & Ha1 & T1), H2 as (a2 & Ha2 & T2).
    eapply Huniq; eauto. congruence.
  - rewrite lookup_delete in H1, H2.
    repeat case_decide; try discriminate. eauto.
Qed.

Lemma reachable_unique_titles pk (tbl : gmap Z Row) :
  App.reachable pk tbl -> unique_titles tbl.
Proof.
  induction 1 as [|tbl req ok _ IH].
  - intros k1 k2 r1 r2 H1. now rewrite lookup_empty in H1.
  - eapply effect_unique_titles; [apply serve_effect | exact IH].
Qed.

(** Every rating stored in a reachable table went through the bounds test. *)
Lemma reachable_ratings pk (tbl : gmap Z Row) :
  App.reachable pk tbl ->
  forall k r, tbl !! k = Some r -> out_of_bounds (row_rating r) = false.
Proof.
  induction 1 as [|tbl req ok _ IH]; intros k r Hk.
  - now rewrite lookup_empty in Hk.
  - destruct (serve_effect pk req ok tbl) as [|r0 _ Hb _|k0 x Hb _|k0].
    + eauto.
    + rewrite lookup_insert in Hk. case_decide; simplify_eq; eauto.
    + rewrite lookup_alter in Hk. case_decide; [|eauto].
      apply fmap_Some in Hk as (r' & _ & ->). exact Hb.
    + rewrite lookup_delete in Hk. case_decide; [discriminate | eauto].
Qed.

(** ** Looking a book up by its identifier *)

Lemma get_or_404_resolves pk (book_id : string) (tbl : gmap Z Row) (k : Z) (r : Row) :
  resolves pk book_id tbl k r ->
  App.get_or_404 pk book_id (Session.start tbl) = Some (load k r).
Proof.
  intros [Hpk Hk]. unfold App.get_or_404, Session.get. rewrite Hpk. simpl.
  now rewrite Hk.
Qed.

Lemma get_or_404_unresolved pk (book_id : string) (tbl : gmap Z Row) :
  unresolved pk book_id tbl ->
  App.get_or_404 pk book_id (Session.start tbl) = None.
Proof.
  intros Hun. unfold App.get_or_404, Session.get.
  destruct (pk book_id) as [k|] eqn:Hpk; [|reflexivity]. simpl.
  destruct (tbl !! k) as [r|] eqn:Hk; [|reflexivity].
  now destruct (Hun k r).
Qed.

Lemma get_or_404_Some pk (book_id : string) (tbl : gmap Z Row) (b : Book) :
  App.get_or_404 pk book_id (Session.start tbl) = Some b ->
  exists k r, resolves pk book_id tbl k r /\ b = load k r.
Proof.
  unfold App.get_or_404, Session.get.
  destruct (pk book_id) as [k|] eqn:Hpk; [|discriminate]. simpl.
  destruct (tbl !! k) as [r|] eqn:Hk; [|discriminate].
  intros [= <-]. now exists k, r.
Qed.

(** ** The list view *)

(** C8: whatever the table holds, [home] renders [index.html] with all its
    books, each once and with the key, title, author and rating of its row,
    in ascending order of title; it flashes nothing and leaves the session
    as it found it; on an empty table the list is empty. *)
Theorem home_lists_books_by_title (req : Request) (tbl : gmap Z Row) :
  exists l,
    response (App.home req (Session.start tbl))
      = render_template "index.html" (WithBooks l)
    /\ StronglySorted (fun a b => String.leb (title a) (title b) = true) l
    /\ NoDup l
    /\ (forall b,
          b ∈ l <->
          exists k r,
            tbl !! k = Some r
            /\ b = {| id := k; title := row_title r; author := row_author r;
                      rating := row_rating r |})
    /\ length l = size tbl
    /\ flashed (App.home req (Session.start tbl)) = []
    /\ session (App.home req (Session.start tbl)) = Session.start tbl
    /\ (tbl = ∅ -> l = []).
Proof.
  exists (Session.select_order_by_title (Session.start tbl)).
  unfold Session.select_order_by_title.
  pose proof (merge_sort_Permutation title_le (Session.books (Session.start tbl)))
    as Hperm.
  repeat split.
  - exact (StronglySorted_merge_sort title_le _).
  - rewrite Hperm. apply NoDup_books.
  - rewrite Hperm. intros Hb. now apply elem_of_books in Hb.
  - rewrite Hperm. intros Hb. now apply elem_of_books.
  - rewrite Hperm. unfold Session.books. rewrite length_fmap.
    apply length_map_to_list.
  - intros ->. apply Permutation_nil_r. rewrite Hperm.
    unfold Session.books. simpl. now rewrite map_to_list_empty.
Qed.

(** Two books added in the order Zorba, Dune are listed in the order Dune,
    Zorba. *)
Example home_after_two_adds :
  response
    (App.home (get_request "/" [])
       (Session.start
          (App.serve decimal_pk (add_form "Dune" "Frank Herbert" "9.5") true
             (App.serve decimal_pk (add_form "Zorba the Greek" "N. Kazantzakis" "8")
                true ∅))))
  = render_template "index.html"
      (WithBooks
         [ {| id := 2; title := "Dune"; author := "Frank Herbert";
              rating := S754_finite false 5348024557502464 (-49) |};
           {| id := 1; title := "Zorba the Greek"; author := "N. Kazantzakis";
              rating := S754_finite false 4503599627370496 (-49) |} ]).
Proof. vm_compute. reflexivity. Qed.

(** ** Identifiers that name no record *)

Lemma edit_unresolved pk (req : Request) (tbl : gmap Z Row) (ok : bool)
    (book_id : string) :
  PyStr.truthy book_id = true ->
  unresolved pk book_id tbl ->
  get "id" (match method req with POST => form req | GET => args req end)
    = Some book_id ->
  App.edit pk req (Session.start tbl) ok
  = {| response := abort 404; flashed := []; session := Session.start tbl |}.
Proof.
  intros Htruthy Hun Hid. apply get_or_404_unresolved in Hun.
  unfold App.edit. destruct (method req); rewrite Hid; simpl;
    rewrite Htruthy; simpl; now rewrite Hun.
Qed.

Lemma delete_unresolved pk (req : Request) (tbl : gmap Z Row) (ok : bool)
    (book_id : string) :
  PyStr.truthy book_id = true ->
  unresolved pk book_id tbl ->
  get "id" (form req) = Some book_id ->
  App.delete pk req (Session.start tbl) ok
  = {| response := abort 404; flashed := []; session := Session.start tbl |}.
Proof.
  intros Htruthy Hun Hid. apply get_or_404_unresolved in Hun.
  unfold App.delete. rewrite Hid. simpl. rewrite Htruthy. simpl. now rewrite Hun.
Qed.

(** C3: when the identifier sent to [edit] (in the form of a POST, in the
    query of a GET) or to [delete] is a non-empty text that names no stored
    row, the view aborts with 404: it neither redirects nor renders a
    form, flashes nothing and leaves the table alone. *)
Theorem unresolved_id_is_not_found pk (req : Request) (tbl : gmap Z Row)
    (ok : bool) (book_id : string) :
  PyStr.truthy book_id = true ->
  unresolved pk book_id tbl ->
  let not_found (o : Outcome) :=
    response o = abort 404
    /\ response o <> redirect (url_for Home)
    /\ (forall name ctx, response o <> render_template name ctx)
    /\ flashed o = []
    /\ Session.database (session o) = tbl in
  (method req = POST -> get "id" (form req) = Some book_id ->
     not_found (App.edit pk req (Session.start tbl) ok))
  /\ (method req = GET -> get "id" (args req) = Some book_id ->
        not_found (App.edit pk req (Session.start tbl) ok))
  /\ (get "id" (form req) = Some book_id ->
        not_found (App.delete pk req (Session.start tbl) ok)).
Proof.
  intros Htruthy Hun not_found.
  assert (Hnf : not_found {| response := abort 404; flashed := [];
                             session := Session.start tbl |}).
  { unfold not_found. simpl. repeat split; discriminate. }
  split; [|split].
  - intros Hm Hid. now rewrite (edit_unresolved pk req tbl ok book_id); [| | |rewrite Hm].
  - intros Hm Hid. now rewrite (edit_unresolved pk req tbl ok book_id); [| | |rewrite Hm].
  - intros Hid. now rewrite (delete_unresolved pk req tbl ok book_id).
Qed.

Lemma unresolved_id_is_not_found_witness :
  response (App.edit decimal_pk (post "/edit" [("id", "7"); ("rating", "5")])
              (Session.start {[1 := dune]}) true) = abort 404
  /\ response (App.edit decimal_pk (get_request "/edit" [("id", "7")])
                 (Session.start {[1 := dune]}) true) = abort 404
  /\ response (App.delete decimal_pk (post "/delete" [("id", "7")])
                 (Session.start {[1 := dune]}) true) = abort 404.
Proof.
  assert (Hun : unresolved decimal_pk "7" {[1 := dune]}).
  { intros k r [Hpk Hk]. vm_compute in Hpk. injection Hpk as <-.
    vm_compute in Hk. discriminate. }
  split; [|split].
  - apply (proj1 (unresolved_id_is_not_found decimal_pk
             (post "/edit" [("id", "7"); ("rating", "5")]) {[1 := dune]} true "7"
             eq_refl Hun)); reflexivity.
  - apply (proj1 (proj2 (unresolved_id_is_not_found decimal_pk
             (get_request "/edit" [("id", "7")]) {[1 := dune]} true "7"
             eq_refl Hun))); reflexivity.
  - apply (proj2 (proj2 (unresolved_id_is_not_found decimal_pk
             (post "/delete" [("id", "7")]) {[1 := dune]} true "7"
             eq_refl Hun))); reflexivity.
Defined.

(** ** Deleting *)

Lemma delete_missing_id pk (req : Request) (s : Session.t) (ok : bool) :
  PyStr.truthy_opt (get "id" (form req)) = false ->
  App.delete pk req s ok
  = {| response := redirect (url_for Home);
       flashed := [("Invalid book ID.", "error")];
       session := s |}.
Proof. intros H. unfold App.delete. now rewrite H. Qed.

Lemma delete_resolved pk (req : Request) (tbl : gmap Z Row) (ok : bool)
    (book_id : string) (k : Z) (r : Row) :
  get "id" (form req) = Some book_id ->
  PyStr.truthy book_id = true ->
  resolves pk book_id tbl k r ->
  App.delete pk req (Session.start tbl) ok
  = if ok then
      {| response := redirect (url_for Home);
         flashed := [("'" ++ row_title r ++ "' has been deleted successfully!",
                      "success")];
         session := Session.start (base.delete k tbl) |}
    else
      {| response := redirect (url_for Home);
         flashed := [("An error occurred while deleting the book.", "error")];
         session := Session.start tbl |}.
Proof.
  intros Hid Htruthy Hres. apply get_or_404_resolves in Hres.
  unfold App.delete. rewrite Hid. simpl. rewrite Htruthy. simpl. rewrite Hres.
  cbv zeta. rewrite commit_delete. now destruct ok.
Qed.

(** C4, as the code has it: a request to [delete] whose identifier is
    missing (absent or empty), or names a stored row, ends in a redirect to
    the list view, whether or not the commit goes through. *)
Theorem delete_redirects_home pk (req : Request) (tbl : gmap Z Row) (ok : bool) :
  (PyStr.truthy_opt (get "id" (form req)) = false
   \/ exists book_id k r,
        get "id" (form req) = Some book_id /\ resolves pk book_id tbl k r) ->
  response (App.delete pk req (Session.start tbl) ok) = redirect (url_for Home).
Proof.
  intros [Hmiss|(book_id & k & r & Hid & Hres)].
  - now rewrite delete_missing_id.
  - destruct (PyStr.truthy book_id) eqn:Htruthy.
    + rewrite (delete_resolved pk req tbl ok book_id k r) by assumption.
      now destruct ok.
    + rewrite delete_missing_id; [reflexivity|]. now rewrite Hid.
Qed.

Lemma delete_redirects_home_witness :
  response (App.delete decimal_pk (post "/delete" [("id", "1")])
              (Session.start {[1 := dune]}) false) = redirect (url_for Home)
  /\ response (App.delete decimal_pk (post "/delete" [])
                 (Session.start {[1 := dune]}) true) = redirect (url_for Home).
Proof.
  split.
  - apply (delete_redirects_home decimal_pk (post "/delete" [("id", "1")])
             {[1 := dune]} false).
    right. exists "1", 1, dune. repeat split; reflexivity.
  - apply (delete_redirects_home decimal_pk (post "/delete" []) {[1 := dune]} true).
    left. reflexivity.
Defined.

(** C4 as stated fails: an identifier that names no row ends the request
    with 404, not with a redirect. *)
Lemma delete_unknown_id_is_no_redirect :
  response (App.delete decimal_pk (post "/delete" [("id", "7")])
              (Session.start {[1 := dune]}) true) = abort 404
  /\ response (App.delete decimal_pk (post "/delete" [("id", "7")])
                 (Session.start {[1 := dune]}) true) <> redirect (url_for Home).
Proof. split; [reflexivity | discriminate]. Qed.

(** C5: when the identifier names a stored row and the commit goes through,
    [delete] flashes, as a success, exactly one message, in which the title
    of the removed book occurs; the row is gone from the table. *)
Theorem delete_success_names_title pk (req : Request) (tbl : gmap Z Row)
    (book_id : string) (k : Z) (r : Row) :
  get "id" (form req) = Some book_id ->
  PyStr.truthy book_id = true ->
  resolves pk book_id tbl k r ->
  let o := App.delete pk req (Session.start tbl) true in
  exists message,
    flashed o = [(message, "success")]
    /\ message = "'" ++ row_title r ++ "' has been deleted successfully!"
    /\ occurs_in (row_title r) message
    /\ response o = redirect (url_for Home)
    /\ Session.database (session o) = base.delete k tbl.
Proof.
  intros Hid Htruthy Hres o. unfold o.
  rewrite (delete_resolved pk req tbl true book_id k r) by assumption. simpl.
  eexists. repeat split.
  now exists "'", "' has been deleted successfully!".
Qed.

Lemma delete_success_names_title_witness :
  exists message,
    flashed (App.delete decimal_pk (post "/delete" [("id", "1")])
               (Session.start {[1 := dune]}) true) = [(message, "success")]
    /\ message = "'Dune' has been deleted successfully!"
    /\ occurs_in "Dune" message
    /\ response (App.delete decimal_pk (post "/delete" [("id", "1")])
                   (Session.start {[1 := dune]}) true) = redirect "/"
    /\ Session.database
         (session (App.delete decimal_pk (post "/delete" [("id", "1")])
                     (Session.start {[1 := dune]}) true))
       = base.delete 1 {[1 := dune]}.
Proof.
  apply (delete_success_names_title decimal_pk (post "/delete" [("id", "1")])
           {[1 := dune]} "1" 1 dune); [reflexivity | reflexivity |].
  split; reflexivity.
Defined.

(** ** Editing a rating *)

Lemma edit_post_missing_id pk (req : Request) (s : Session.t) (ok : bool) :
  method req = POST ->
  PyStr.truthy_opt (get "id" (form req)) = false ->
  App.edit pk req s ok
  = {| response := redirect (url_for Home);
       flashed := [("Invalid book ID.", "error")];
       session := s |}.
Proof. intros Hm H. unfold App.edit. now rewrite Hm, H. Qed.

Lemma edit_post_resolved pk (req : Request) (tbl : gmap Z Row) (ok : bool)
    (book_id : string) (k : Z) (r : Row) :
  method req = POST ->
  get "id" (form req) = Some book_id ->
  PyStr.truthy book_id = true ->
  resolves pk book_id tbl k r ->
  App.edit pk req (Session.start tbl) ok
  = let rating_str := PyStr.strip (default "" (get "rating" (form req))) in
    let form_again message :=
      {| response := render_template "edit_rating.html" (WithBook (load k r));
         flashed := [(message, "error")];
         session := Session.start tbl |} in
    if negb (PyStr.truthy rating_str) then form_again "Rating is required."
    else
      match PyFloat.float rating_str with
      | None => form_again "Rating must be a valid number."
      | Some x =>
          if out_of_bounds x then form_again "Rating must be between 0 and 10."
          else if ok && Session.not_null (set_rating x r) then
            {| response := redirect (url_for Home);
               flashed := [("Rating updated successfully!", "success")];
               session := Session.start (alter (set_rating (Session.real x)) k tbl) |}
          else
            {| response := redirect (url_for Home);
               flashed := [("An error occurred while updating the rating.", "error")];
               session := Session.start tbl |}
      end.
Proof.
  intros Hm Hid Htruthy Hres. apply get_or_404_resolves in Hres.
  unfold App.edit. rewrite Hm, Hid. simpl. rewrite Htruthy. simpl. rewrite Hres.
  destruct (negb _); [reflexivity|].
  destruct (PyFloat.float _) as [x|]; [|reflexivity].
  unfold out_of_bounds. destruct (_ || _); [reflexivity|].
  cbv zeta. rewrite commit_assign_rating.
  change (Session.not_null
            {| row_title := title (load k r); row_author := author (load k r);
               row_rating := x |})
    with (Session.not_null (set_rating x r)).
  now destruct (ok && _).
Qed.

(** C6, as the code has it: a POST to [edit] redirects to the list view when
    the identifier is missing, and when it names a stored row and the rating
    text reads as a number between 0 and 10, whether or not the commit goes
    through. With a stored row and a rating text that is empty, is no number,
    or reads as a number below 0 or above 10, the edit form of that row is
    rendered again. An identifier that names no row ends in 404. *)
Theorem edit_post_response pk (req : Request) (tbl : gmap Z Row) (ok : bool) :
  method req = POST ->
  let o := App.edit pk req (Session.start tbl) ok in
  let rating_str := PyStr.strip (default "" (get "rating" (form req))) in
  (PyStr.truthy_opt (get "id" (form req)) = false ->
     response o = redirect (url_for Home))
  /\ (forall book_id k r,
        get "id" (form req) = Some book_id ->
        PyStr.truthy book_id = true ->
        resolves pk book_id tbl k r ->
        (forall x, PyFloat.float rating_str = Some x -> in_range x = true ->
           response o = redirect (url_for Home))
        /\ (rating_str = "" ->
              response o = render_template "edit_rating.html" (WithBook (load k r))
              /\ flashed o = [("Rating is required.", "error")])
        /\ (rating_str <> "" -> PyFloat.float rating_str = None ->
              response o = render_template "edit_rating.html" (WithBook (load k r))
              /\ flashed o = [("Rating must be a valid number.", "error")])
        /\ (forall x, PyFloat.float rating_str = Some x ->
              (PyFloat.lt x (PyFloat.of_int 0) = true
               \/ PyFloat.gt x (PyFloat.of_int 10) = true) ->
              response o = render_template "edit_rating.html" (WithBook (load k r))
              /\ flashed o = [("Rating must be between 0 and 10.", "error")]))
  /\ (forall book_id,
        get "id" (form req) = Some book_id ->
        PyStr.truthy book_id = true ->
        unresolved pk book_id tbl ->
        response o = abort 404).
Proof.
  intros Hm o rating_str. split; [|split].
  - intros Hmiss. unfold o. now rewrite edit_post_missing_id.
  - intros book_id k r Hid Htruthy Hres.
    pose proof (edit_post_resolved pk req tbl ok book_id k r Hm Hid Htruthy Hres)
      as Heq.
    fold o in Heq. cbv zeta in Heq. fold rating_str in Heq.
    assert (Hne : rating_str <> "" -> negb (PyStr.truthy rating_str) = false)
      by (destruct rating_str; [congruence | reflexivity]).
    split; [|split; [|split]].
    + intros x Hx Hin. rewrite Heq.
      assert (rating_str <> "") as ->%Hne by (intros E; now rewrite E in Hx).
      rewrite Hx.
      assert (out_of_bounds x = false) as -> by (apply passes_bounds; now right).
      now destruct (ok && _).
    + intros Hempty. rewrite Heq, Hempty. split; reflexivity.
    + intros Hnonempty Hnone. rewrite Heq, (Hne Hnonempty), Hnone.
      split; reflexivity.
    + intros x Hx Hout. rewrite Heq.
      assert (rating_str <> "") as ->%Hne by (intros E; now rewrite E in Hx).
      rewrite Hx. unfold out_of_bounds.
      destruct Hout as [-> | ->]; rewrite ?orb_true_r; split; reflexivity.
  - intros book_id Hid Htruthy Hun. unfold o.
    now rewrite (edit_unresolved pk req tbl ok book_id); [| | |rewrite Hm].
Qed.

Lemma edit_post_response_witness :
  response (App.edit decimal_pk (post "/edit" [("rating", "7")])
              (Session.start {[1 := dune]}) true) = redirect "/"
  /\ response (App.edit decimal_pk (post "/edit" [("id", "1"); ("rating", "7")])
                 (Session.start {[1 := dune]}) false) = redirect "/"
  /\ response (App.edit decimal_pk (post "/edit" [("id", "1"); ("rating", "11")])
                 (Session.start {[1 := dune]}) true)
     = render_template "edit_rating.html" (WithBook (load 1 dune))
  /\ response (App.edit decimal_pk (post "/edit" [("id", "7"); ("rating", "7")])
                 (Session.start {[1 := dune]}) true) = abort 404.
Proof.
  assert (Hres : resolves decimal_pk "1" {[1 := dune]} 1 dune)
    by (split; reflexivity).
  split; [|split; [|split]].
  - apply (proj1 (edit_post_response decimal_pk (post "/edit" [("rating", "7")])
                    {[1 := dune]} true eq_refl)).
    reflexivity.
  - apply (proj1 (proj1 (proj2 (edit_post_response decimal_pk
                    (post "/edit" [("id", "1"); ("rating", "7")])
                    {[1 := dune]} false eq_refl)) "1" 1 dune eq_refl eq_refl Hres)
             (S754_finite false 7881299347898368 (-50)));
      vm_compute; reflexivity.
  - apply (proj2 (proj2 (proj2 (proj1 (proj2 (edit_post_response decimal_pk
                    (post "/edit" [("id", "1"); ("rating", "11")])
                    {[1 := dune]} true eq_refl)) "1" 1 dune eq_refl eq_refl Hres)))
             (S754_finite false 6192449487634432 (-49))).
    + vm_compute. reflexivity.
    + right. vm_compute. reflexivity.
  - apply (proj2 (proj2 (edit_post_response decimal_pk
                    (post "/edit" [("id", "7"); ("rating", "7")])
                    {[1 := dune]} true eq_refl)) "7"); [reflexivity..|].
    intros k r [Hpk Hk]. vm_compute in Hpk. injection Hpk as <-.
    vm_compute in Hk. discriminate.
Defined.

(** C6 as stated fails: with a stored row, a rating text that is empty, is
    no number, or is out of range renders the edit form again instead of
    redirecting. *)
Lemma edit_invalid_rating_is_no_redirect :
  let answer rating_text :=
    response (App.edit decimal_pk (post "/edit" [("id", "1"); ("rating", rating_text)])
                (Session.start {[1 := dune]}) true) in
  answer "" = render_template "edit_rating.html" (WithBook (load 1 dune))
  /\ answer "abc" = render_template "edit_rating.html" (WithBook (load 1 dune))
  /\ answer "11" = render_template "edit_rating.html" (WithBook (load 1 dune))
  /\ answer "" <> redirect (url_for Home)
  /\ answer "abc" <> redirect (url_for Home)
  /\ answer "11" <> redirect (url_for Home).
Proof. vm_compute. repeat split; discriminate. Qed.

(** What a successful edit looks like from outside. *)
Lemma edit_succeeds pk (req : Request) (tbl : gmap Z Row) (ok : bool) :
  flashed (App.edit pk req (Session.start tbl) ok)
    = [("Rating updated successfully!", "success")] ->
  exists book_id k r x,
    method req = POST
    /\ ok = true
    /\ get "id" (form req) = Some book_id
    /\ PyStr.truthy book_id = true
    /\ resolves pk book_id tbl k r
    /\ PyFloat.float (PyStr.strip (default "" (get "rating" (form req)))) = Some x
    /\ out_of_bounds x = false
    /\ x <> S754_nan
    /\ App.edit pk req (Session.start tbl) ok
       = {| response := redirect (url_for Home);
            flashed := [("Rating updated successfully!", "success")];
            session := Session.start (alter (set_rating (Session.real x)) k tbl) |}.
Proof.
  unfold App.edit. destruct (method req) eqn:Hm.
  { destruct (negb _); [discriminate|].
    destruct (App.get_or_404 _ _ _); discriminate. }
  destruct (PyStr.truthy_opt (get "id" (form req))) eqn:Hid; [|discriminate].
  apply truthy_opt_Some in Hid as (book_id & Hid & Htruthy & ->). simpl.
  destruct (App.get_or_404 _ _ _) as [b|] eqn:Hget; [|discriminate].
  apply get_or_404_Some in Hget as (k & r & Hres & ->).
  destruct (negb _); [discriminate|].
  destruct (PyFloat.float _) as [x|] eqn:Hx; [|discriminate].
  destruct (_ || _) eqn:Hb; [discriminate|].
  cbv zeta. rewrite commit_assign_rating.
  destruct (ok && _) eqn:Hc; [|discriminate].
  apply andb_true_iff in Hc as [-> Hnn%not_null_rating]. simpl. intros _.
  now exists book_id, k, r, x.
Qed.

(** C7: after a successful edit the row named by the identifier of the form
    has its rating replaced by the number read from the rating field, as
    the rating column keeps it (a zero without its sign); its key, title
    and author are as before, every other key holds what it held before,
    and no key is added or removed. *)
Theorem edit_overwrites_rating_only pk (req : Request) (tbl : gmap Z Row) (ok : bool) :
  flashed (App.edit pk req (Session.start tbl) ok)
    = [("Rating updated successfully!", "success")] ->
  let tbl' := Session.database (session (App.edit pk req (Session.start tbl) ok)) in
  exists book_id k r x,
    get "id" (form req) = Some book_id
    /\ pk book_id = Some k
    /\ tbl !! k = Some r
    /\ PyFloat.float (PyStr.strip (default "" (get "rating" (form req)))) = Some x
    /\ in_range x = true
    /\ tbl' !! k
       = Some {| row_title := row_title r; row_author := row_author r;
                 row_rating :=
                   match x with S754_zero _ => S754_zero false | _ => x end |}
    /\ Session.get k (session (App.edit pk req (Session.start tbl) ok))
       = Some {| id := k; title := row_title r; author := row_author r;
                 rating := match x with S754_zero _ => S754_zero false | _ => x end |}
    /\ (forall k', k' <> k -> tbl' !! k' = tbl !! k')
    /\ dom tbl' = dom tbl.
Proof.
  intros Hok tbl'.
  destruct (edit_succeeds pk req tbl ok Hok)
    as (book_id & k & r & x & _ & _ & Hid & _ & [Hpk Hk] & Hx & Hb & Hnan & Heq).
  assert (Hin : in_range x = true).
  { apply passes_bounds in Hb as [Hb|Hb]; [contradiction | exact Hb]. }
  exists book_id, k, r, x. unfold tbl'. rewrite Heq. simpl. unfold Session.get. simpl.
  repeat split; try assumption.
  - rewrite lookup_alter_eq, Hk. reflexivity.
  - rewrite lookup_alter_eq, Hk. reflexivity.
  - intros k' Hk'. now rewrite lookup_alter_ne.
  - apply dom_alter_L.
Qed.

Lemma edit_overwrites_rating_only_witness :
  exists book_id k r x,
    get "id" (form (edit_form "1" " -0 ")) = Some book_id
    /\ decimal_pk book_id = Some k
    /\ ({[1 := dune]} : gmap Z Row) !! k = Some r
    /\ PyFloat.float "-0" = Some x
    /\ Session.database
         (session (App.edit decimal_pk (edit_form "1" " -0 ")
                     (Session.start {[1 := dune]}) true)) !! k
       = Some {| row_title := row_title r; row_author := row_author r;
                 row_rating :=
                   match x with S754_zero _ => S754_zero false | _ => x end |}.
Proof.
  assert (Hok : flashed (App.edit decimal_pk (edit_form "1" " -0 ")
                           (Session.start {[1 := dune]}) true)
                 = [("Rating updated successfully!", "success")])
    by (vm_compute; reflexivity).
  destruct (edit_overwrites_rating_only decimal_pk (edit_form "1" " -0 ")
              {[1 := dune]} true Hok)
    as (book_id & k & r & x & Hid & Hpk & Hk & Hx & _ & Hk' & _).
  exists book_id, k, r, x. repeat split; assumption.
Defined.

(** ** Adding a book *)

(** The checks of a POST to [add], in the order they are made. *)
Lemma add_validation_order (req : Request) (tbl : gmap Z Row) (ok : bool) :
  method req = POST ->
  let title := PyStr.strip (default "" (get "title" (form req))) in
  let author := PyStr.strip (default "" (get "author" (form req))) in
  let rating_str := PyStr.strip (default "" (get "rating" (form req))) in
  let o := App.add req (Session.start tbl) ok in
  let form_again message :=
    o = {| response := render_template "add.html" NoContext;
           flashed := [(message, "error")];
           session := Session.start tbl |} in
  ((title = "" \/ author = "" \/ rating_str = "") ->
     form_again "All fields are required.")
  /\ (title <> "" -> author <> "" -> rating_str <> "" ->
      (PyFloat.float rating_str = None ->
         form_again "Rating must be a valid number.")
      /\ (forall x, PyFloat.float rating_str = Some x ->
            (out_of_bounds x = true ->
               form_again "Rating must be between 0 and 10.")
            /\ (out_of_bounds x = false ->
                  ((exists k r, tbl !! k = Some r /\ row_title r = title) ->
                     unique_titles tbl ->
                     form_again "A book with this title already exists.")
                  /\ ((forall k r, tbl !! k = Some r -> row_title r <> title) ->
                        if ok && Session.not_null
                                   {| row_title := title; row_author := author;
                                      row_rating := x |}
                        then
                          response o = redirect (url_for Home)
                          /\ flashed o = [("Book added successfully!", "success")]
                          /\ Session.database (session o)
                             = <[Session.next_id tbl :=
                                   {| row_title := title; row_author := author;
                                      row_rating := Session.real x |}]> tbl
                        else
                          form_again "An error occurred while adding the book.")))).
Proof.
  intros Hm title author rating_str o form_again.
  unfold form_again, o, App.add. rewrite Hm.
  fold title author rating_str.
  split.
  - intros Hempty.
    assert (negb (PyStr.truthy title) || negb (PyStr.truthy author)
            || negb (PyStr.truthy rating_str) = true) as ->; [|reflexivity].
    destruct Hempty as [-> | [-> | ->]]; simpl; now rewrite ?orb_true_r.
  - intros Ht Ha Hr.
    assert (negb (PyStr.truthy title) || negb (PyStr.truthy author)
            || negb (PyStr.truthy rating_str) = false) as ->.
    { destruct title, author, rating_str; congruence || reflexivity. }
    split; [now intros ->|].
    intros x ->. fold (out_of_bounds x).
    split; [now intros ->|]. intros ->.
    split.
    + intros (k & r & Hk & Hrt) Huniq.
      now rewrite (select_where_title_one title (Session.start tbl) k r).
    + intros Hfree.
      rewrite (proj2 (select_where_title_nil title (Session.start tbl)) Hfree).
      cbv zeta. simpl scalar_one_or_none. cbv iota. rewrite commit_add.
      now destruct (ok && _).
Qed.

(** A POST to [add] that finds the title in use leaves the table as it
    was, whatever else the form holds. *)
Lemma add_title_in_use (req : Request) (tbl : gmap Z Row) (ok : bool) (k : Z) (r : Row) :
  tbl !! k = Some r ->
  row_title r = PyStr.strip (default "" (get "title" (form req))) ->
  Session.database (session (App.add req (Session.start tbl) ok)) = tbl.
Proof.
  intros Hk Ht. unfold App.add. destruct (method req); [reflexivity|].
  destruct (_ || _ || _); [reflexivity|].
  destruct (PyFloat.float _) as [x|]; [|reflexivity].
  destruct (_ || _); [reflexivity|].
  destruct (scalar_one_or_none _) eqn:Hsel; [|reflexivity..].
  apply scalar_NoRow in Hsel.
  now destruct (proj1 (select_where_title_nil _ (Session.start tbl)) Hsel k r Hk).
Qed.

Lemma home_keeps_table (req : Request) (tbl : gmap Z Row) :
  Session.database (session (App.home req (Session.start tbl))) = tbl.
Proof. reflexivity. Qed.

Lemma edit_no_new_key pk (req : Request) (ok : bool) (tbl : gmap Z Row) (k : Z) :
  tbl !! k = None ->
  Session.database (session (App.edit pk req (Session.start tbl) ok)) !! k = None.
Proof.
  intros Hk. unfold App.edit. destruct (method req).
  - destruct (negb _); [exact Hk|].
    destruct (App.get_or_404 _ _ _); exact Hk.
  - destruct (negb _); [exact Hk|].
    destruct (App.get_or_404 _ _ _) as [b|]; [|exact Hk].
    destruct (negb _); [exact Hk|].
    destruct (PyFloat.float _) as [x|]; [|exact Hk].
    destruct (_ || _); [exact Hk|].
    cbv zeta. rewrite commit_assign_rating.
    destruct (ok && _); simpl; [|exact Hk].
    rewrite lookup_alter. case_decide; [subst|exact Hk]. now rewrite Hk.
Qed.

Lemma delete_no_new_key pk (req : Request) (ok : bool) (tbl : gmap Z Row) (k : Z) :
  tbl !! k = None ->
  Session.database (session (App.delete pk req (Session.start tbl) ok)) !! k = None.
Proof.
  intros Hk. unfold App.delete.
  destruct (negb _); [exact Hk|].
  destruct (App.get_or_404 _ _ _) as [b|]; [|exact Hk].
  cbv zeta. rewrite commit_delete.
  destruct ok; simpl; [|exact Hk].
  rewrite lookup_delete. now case_decide.
Qed.

(** Only a POST to [/add] makes a key appear. *)
Lemma serve_new_key pk (req : Request) (ok : bool) (tbl : gmap Z Row) (k : Z) :
  tbl !! k = None ->
  is_Some (App.serve pk req ok tbl !! k) ->
  path req = url_for Add /\ method req = POST.
Proof.
  intros Hk. unfold App.serve, App.dispatch.
  destruct (String.eqb (path req) (url_for Home)).
  { destruct (method req); simpl; rewrite Hk; now intros []. }
  destruct (String.eqb (path req) (url_for Add)) eqn:Hadd.
  { apply String.eqb_eq in Hadd. intros Hsome. split; [exact Hadd|].
    destruct (method req) eqn:Hm; [|reflexivity].
    unfold App.add in Hsome. rewrite Hm in Hsome. simpl in Hsome.
    rewrite Hk in Hsome. now destruct Hsome. }
  destruct (String.eqb (path req) (url_for Edit)).
  { rewrite (edit_no_new_key pk req ok tbl k Hk). now intros []. }
  destruct (String.eqb (path req) (url_for Delete)).
  { destruct (method req); simpl.
    - rewrite Hk. now intros [].
    - rewrite (delete_no_new_key pk req ok tbl k Hk). now intros []. }
  simpl. rewrite Hk. now intros [].
Qed.

(** For a rating that is a number, the bounds test of [add] is the test of
    the interval: outside of it, the form comes back with the range
    message. *)
Lemma add_rejects_outside_range (req : Request) (tbl : gmap Z Row) (ok : bool)
    (x : spec_float) :
  method req = POST ->
  PyStr.strip (default "" (get "title" (form req))) <> "" ->
  PyStr.strip (default "" (get "author" (form req))) <> "" ->
  PyFloat.float (PyStr.strip (default "" (get "rating" (form req)))) = Some x ->
  x <> S754_nan ->
  in_range x = false ->
  App.add req (Session.start tbl) ok
  = {| response := render_template "add.html" NoContext;
       flashed := [("Rating must be between 0 and 10.", "error")];
       session := Session.start tbl |}.
Proof.
  intros Hm Ht Ha Hx Hnan Hin.
  assert (Hr : PyStr.strip (default "" (get "rating" (form req))) <> "")
    by (intros E; now rewrite E in Hx).
  destruct (add_validation_order req tbl ok Hm) as [_ Hchecks].
  destruct (Hchecks Ht Ha Hr) as [_ Hnum].
  destruct (Hnum x Hx) as [Hbounds _].
  apply Hbounds. now rewrite (out_of_bounds_in_range x Hnan), Hin.
Qed.

(** Every rating in a reachable table is a NaN or lies between 0 and 10. *)
Lemma reachable_ratings_in_range_or_nan pk (tbl : gmap Z Row) (k : Z) (r : Row) :
  App.reachable pk tbl -> tbl !! k = Some r ->
  row_rating r = S754_nan \/ in_range (row_rating r) = true.
Proof.
  intros Hreach Hk. apply passes_bounds. exact (reachable_ratings pk tbl Hreach k r Hk).
Qed.

(** ** One record per title *)

(** C9: in every table that requests can produce, no two rows share a
    title; a key that was free before a request and is taken after it was
    created by a POST to [/add]; and such a POST whose title, stripped of
    surrounding blanks, is the title of a stored row shows the add form
    again and leaves the table, and so the number of rows, as it was: with
    the other fields in order, the message says that the title exists. *)
Theorem one_record_per_title pk (tbl : gmap Z Row) :
  App.reachable pk tbl ->
  unique_titles tbl
  /\ (forall req ok k,
        tbl !! k = None -> is_Some (App.serve pk req ok tbl !! k) ->
        path req = url_for Add /\ method req = POST)
  /\ (forall req ok k r,
        path req = url_for Add -> method req = POST ->
        tbl !! k = Some r ->
        row_title r = PyStr.strip (default "" (get "title" (form req))) ->
        let o := App.dispatch pk req (Session.start tbl) ok in
        App.serve pk req ok tbl = tbl
        /\ size (App.serve pk req ok tbl) = size tbl
        /\ response o = render_template "add.html" NoContext
        /\ (PyStr.strip (default "" (get "title" (form req))) <> "" ->
            PyStr.strip (default "" (get "author" (form req))) <> "" ->
            forall x,
              PyFloat.float (PyStr.strip (default "" (get "rating" (form req))))
                = Some x ->
              out_of_bounds x = false ->
              flashed o = [("A book with this title already exists.", "error")])).
Proof.
  intros Hreach. pose proof (reachable_unique_titles pk tbl Hreach) as Huniq.
  split; [exact Huniq|]. split; [intros req ok k; apply serve_new_key|].
  intros req ok k r Hpath Hm Hk Ht o.
  assert (Ho : o = App.add req (Session.start tbl) ok).
  { unfold o, App.dispatch. rewrite Hpath. reflexivity. }
  assert (Hsame : App.serve pk req ok tbl = tbl).
  { unfold App.serve. fold o. rewrite Ho. now apply (add_title_in_use req tbl ok k r). }
  rewrite Hsame, Ho. repeat split.
  - unfold App.add. rewrite Hm.
    destruct (_ || _ || _); [reflexivity|].
    destruct (PyFloat.float _) as [x|]; [|reflexivity].
    destruct (_ || _); [reflexivity|].
    now rewrite (select_where_title_one _ (Session.start tbl) k r).
  - intros Hti Hau x Hx Hb.
    assert (Hr : PyStr.strip (default "" (get "rating" (form req))) <> "")
      by (intros E; now rewrite E in Hx).
    destruct (add_validation_order req tbl ok Hm) as [_ Hchecks].
    destruct (Hchecks Hti Hau Hr) as [_ Hnum].
    destruct (Hnum x Hx) as [_ Hbounds].
    destruct (Hbounds Hb) as [Hdup _].
    rewrite Hdup; [reflexivity | now exists k, r | exact Huniq].
Qed.

Lemma one_record_per_title_witness :
  unique_titles (App.serve decimal_pk (add_form "Dune" "Frank Herbert" "9.5") true ∅)
  /\ App.serve decimal_pk (add_form " Dune " "F. Herbert" "8") true
       (App.serve decimal_pk (add_form "Dune" "Frank Herbert" "9.5") true ∅)
     = App.serve decimal_pk (add_form "Dune" "Frank Herbert" "9.5") true ∅.
Proof.
  assert (Hreach : App.reachable decimal_pk
            (App.serve decimal_pk (add_form "Dune" "Frank Herbert" "9.5") true ∅))
    by apply App.reachable_serve, App.reachable_empty.
  destruct (one_record_per_title decimal_pk _ Hreach) as (Huniq & _ & Hdup).
  split; [exact Huniq|].
  apply (Hdup (add_form " Dune " "F. Herbert" "8") true 1 dune);
    vm_compute; reflexivity.
Defined.

(** ** Ratings that are not numbers *)






(** ** Ratings stay between 0 and 10 *)

Lemma accepted_rating_in_range (x : spec_float) :
  out_of_bounds x = false -> x <> S754_nan -> in_range x = true.
Proof. intros Hb Hnan. apply passes_bounds in Hb as [Hb|Hb]; [contradiction|exact Hb]. Qed.

(** A row found after a request was there before, or has a rating between
    0 and 10. *)
Lemma effect_rating_in_range (tbl tbl' : gmap Z Row) (k : Z) (r : Row) :
  effect tbl tbl' -> tbl' !! k = Some r ->
  tbl !! k = Some r \/ in_range (row_rating r) = true.
Proof.
  intros [|r0 _ Hb Hnan|k0 x Hb Hnan|k0] Hk.
  - now left.
  - rewrite lookup_insert in Hk. case_decide; [|now left].
    injection Hk as <-. right. now apply accepted_rating_in_range.
  - rewrite lookup_alter in Hk. case_decide; [|now left].
    apply fmap_Some in Hk as (r' & _ & ->). right. simpl.
    now apply accepted_rating_in_range.
  - rewrite lookup_delete in Hk. case_decide; [discriminate | now left].
Qed.

(** C1: in every table that requests can produce from the empty one, each
    stored rating lies between 0 and 10; and whatever the table a request
    finds, a row that is in the table after the request and was not there
    before (a row added, a row whose rating was edited) has a rating
    between 0 and 10. *)
Theorem persisted_ratings_are_in_range pk (tbl : gmap Z Row) :
  (App.reachable pk tbl ->
   forall k r, tbl !! k = Some r -> in_range (row_rating r) = true)
  /\ (forall req ok k r,
        App.serve pk req ok tbl !! k = Some r ->
        tbl !! k = Some r \/ in_range (row_rating r) = true).
Proof.
  split.
  - induction 1 as [|tbl req ok _ IH]; intros k r Hk.
    + now rewrite lookup_empty in Hk.
    + destruct (effect_rating_in_range tbl _ k r (serve_effect pk req ok tbl) Hk)
        as [Hold|Hnew]; [exact (IH k r Hold) | exact Hnew].
  - intros req ok k r Hk.
    exact (effect_rating_in_range tbl _ k r (serve_effect pk req ok tbl) Hk).
Qed.

Lemma persisted_ratings_are_in_range_witness :
  in_range (row_rating dune) = true
  /\ in_range (S754_zero false) = true.
Proof.
  split.
  - apply (proj1 (persisted_ratings_are_in_range decimal_pk
                    (App.serve decimal_pk (add_form "Dune" "Frank Herbert" "9.5")
                       true ∅))
             (App.reachable_serve decimal_pk ∅ _ true (App.reachable_empty decimal_pk))
             1 dune).
    vm_compute. reflexivity.
  - apply (proj1 (persisted_ratings_are_in_range decimal_pk
                    (App.serve decimal_pk (edit_form "1" "-0.0") true
                       (App.serve decimal_pk (add_form "Dune" "Frank Herbert" "9.5")
                          true ∅)))
             (App.reachable_serve decimal_pk _ _ true
                (App.reachable_serve decimal_pk ∅ _ true
                   (App.reachable_empty decimal_pk)))
             1 (set_rating (S754_zero false) dune)).
    vm_compute. reflexivity.
Defined.

(** C2 fails on a NaN: for the form (Dune, Frank Herbert, nan) sent to an
    empty catalogue the three fields are non-empty and the rating text reads
    as a float that is not in the interval from 0 to 10, so the range check
    is the first that should fail. Whatever the storage does, the answer
    does not carry the range message: the view goes on to the commit, which
    raises, and answers with the general storage error. *)
Theorem add_nan_shows_no_range_message (ok : bool) :
  let req := add_form "Dune" "Frank Herbert" "nan" in
  let o := App.add req (Session.start ∅) ok in
  PyStr.strip (default "" (get "title" (form req))) <> ""
  /\ PyStr.strip (default "" (get "author" (form req))) <> ""
  /\ PyStr.strip (default "" (get "rating" (form req))) <> ""
  /\ (exists x,
        PyFloat.float (PyStr.strip (default "" (get "rating" (form req)))) = Some x
        /\ in_range x = false)
  /\ flashed o <> [("Rating must be between 0 and 10.", "error")]
  /\ o = {| response := render_template "add.html" NoContext;
            flashed := [("An error occurred while adding the book.", "error")];
            session := Session.start ∅ |}.
Proof.
  destruct ok; repeat split; try discriminate;
    exists S754_nan; split; reflexivity.
Qed.

(** * Further properties of the views *)

(** ** Blanks around and inside the fields *)

Lemma lstrip_head (s : string) :
  PyStr.lstrip s = ""
  \/ exists c t, PyStr.lstrip s = String c t /\ PyStr.isspace c = false.
Proof.
  induction s as [|c s IH]; simpl; [now left|].
  destruct (PyStr.isspace c) eqn:Hc; [exact IH|]. right. now exists c, s.
Qed.

Lemma lstrip_empty_blank (s : string) : PyStr.lstrip s = "" <-> blank s = true.
Proof.
  induction s as [|c s IH]; simpl; [easy|].
  destruct (PyStr.isspace c); simpl; [exact IH|]. split; discriminate.
Qed.

Lemma rstrip_cons (c : ascii) (t : string) :
  PyStr.rstrip (String c t)
  = match PyStr.rstrip t with
    | EmptyString => if PyStr.isspace c then EmptyString else String c EmptyString
    | r => String c r
    end.
Proof. reflexivity. Qed.

Lemma rstrip_nonspace (c : ascii) (t : string) :
  PyStr.isspace c = false -> PyStr.rstrip (String c t) = String c (PyStr.rstrip t).
Proof. intros Hc. simpl. rewrite Hc. now destruct (PyStr.rstrip t). Qed.

Lemma rstrip_idempotent (s : string) : PyStr.rstrip (PyStr.rstrip s) = PyStr.rstrip s.
Proof.
  induction s as [|c s IH]; [reflexivity|]. simpl.
  destruct (PyStr.rstrip s) as [|c' r] eqn:Hr.
  - destruct (PyStr.isspace c) eqn:Hc; [reflexivity|]. simpl. now rewrite Hc.
  - rewrite (rstrip_cons c (String c' r)), IH. reflexivity.
Qed.

Lemma strip_empty_blank (s : string) : PyStr.strip s = "" <-> blank s = true.
Proof.
  unfold PyStr.strip. rewrite <- lstrip_empty_blank.
  destruct (lstrip_head s) as [->|(c & t & -> & Hc)]; [easy|].
  rewrite (rstrip_nonspace c t Hc). split; discriminate.
Qed.

Lemma strip_idempotent (s : string) : PyStr.strip (PyStr.strip s) = PyStr.strip s.
Proof.
  unfold PyStr.strip.
  destruct (lstrip_head s) as [->|(c & t & -> & Hc)]; [reflexivity|].
  rewrite (rstrip_nonspace c t Hc). simpl PyStr.lstrip. rewrite Hc.
  rewrite <- (rstrip_nonspace c t Hc). apply rstrip_idempotent.
Qed.

Lemma truthy_nonempty (s : string) : PyStr.truthy s = true <-> s <> "".
Proof. destruct s; simpl; split; congruence. Qed.

(** X1: a POST to [add] answers "All fields are required." exactly when one
    of the fields [title], [author], [rating] is absent from the form or
    holds blanks only; the add form is then shown again and the session is
    left as it was. *)
Theorem add_requires_all_fields (req : Request) (tbl : gmap Z Row) (ok : bool) :
  method req = POST ->
  let field name := default "" (get name (form req)) in
  let o := App.add req (Session.start tbl) ok in
  (flashed o = [("All fields are required.", "error")]
   <-> blank (field "title") = true \/ blank (field "author") = true
       \/ blank (field "rating") = true)
  /\ (flashed o = [("All fields are required.", "error")] ->
      response o = render_template "add.html" NoContext
      /\ session o = Session.start tbl).
Proof.
  intros Hm field o.
  assert (Htest : negb (PyStr.truthy (PyStr.strip (field "title")))
                  || negb (PyStr.truthy (PyStr.strip (field "author")))
                  || negb (PyStr.truthy (PyStr.strip (field "rating"))) = true
                  <-> blank (field "title") = true \/ blank (field "author") = true
                      \/ blank (field "rating") = true).
  { rewrite <- !strip_empty_blank, !orb_true_iff, !negb_true_iff.
    assert (Hf : forall s, PyStr.truthy s = false <-> s = "")
      by (intros []; simpl; split; congruence).
    rewrite !Hf. tauto. }
  unfold o, App.add. rewrite Hm. fold (field "title") (field "author") (field "rating").
  destruct (_ || _ || _) eqn:Hany.
  - simpl. split; [|easy]. split; [intros _; now apply Htest | reflexivity].
  - assert (Hno : ~ (blank (field "title") = true \/ blank (field "author") = true
                     \/ blank (field "rating") = true))
      by (rewrite <- Htest; discriminate).
    assert (Hflash : forall o' : Outcome,
               flashed o' <> [("All fields are required.", "error")] ->
               (flashed o' = [("All fields are required.", "error")] <-> 
                blank (field "title") = true \/ blank (field "author") = true
                \/ blank (field "rating") = true)
               /\ (flashed o' = [("All fields are required.", "error")] ->
                   response o' = render_template "add.html" NoContext
                   /\ session o' = Session.start tbl))
      by (intros o' Hne; split; [split; [intros E | intros E]; contradiction
                                | intros E; contradiction]).
    apply Hflash.
    destruct (PyFloat.float _) as [x|]; [|differ].
    fold (out_of_bounds x). destruct (out_of_bounds x); [differ|].
    destruct (scalar_one_or_none _); try differ.
    cbv zeta. rewrite commit_add. destruct (ok && _); differ.
Qed.

Lemma add_requires_all_fields_witness :
  flashed (App.add (add_form "Dune" "   " "9.5") (Session.start ∅) true)
    = [("All fields are required.", "error")]
  /\ response (App.add (add_form "Dune" "   " "9.5") (Session.start ∅) true)
     = render_template "add.html" NoContext.
Proof.
  destruct (add_requires_all_fields (add_form "Dune" "   " "9.5") ∅ true eq_refl)
    as [Hiff Hform].
  assert (Hflash : flashed (App.add (add_form "Dune" "   " "9.5") (Session.start ∅) true)
                   = [("All fields are required.", "error")]).
  { apply Hiff. right. left. reflexivity. }
  split; [exact Hflash | exact (proj1 (Hform Hflash))].
Defined.

(** ** What every answer has in common *)

Lemma add_disciplined (req : Request) (ok : bool) (tbl : gmap Z Row) :
  disciplined req ok tbl (App.add req (Session.start tbl) ok).
Proof.
  unfold App.add. destruct (method req) eqn:Hm; [discipline|].
  destruct (negb _ || negb _ || negb _); [discipline|].
  destruct (PyFloat.float _) as [x|]; [|discipline].
  fold (out_of_bounds x). destruct (out_of_bounds x); [discipline|].
  destruct (scalar_one_or_none _); [|discipline..].
  cbv zeta. rewrite commit_add.
  destruct (ok && _) eqn:Hc; [apply andb_true_iff in Hc as [-> _]|]; discipline.
Qed.

Lemma edit_disciplined pk (req : Request) (ok : bool) (tbl : gmap Z Row) :
  disciplined req ok tbl (App.edit pk req (Session.start tbl) ok).
Proof.
  unfold App.edit. destruct (method req) eqn:Hm.
  - destruct (negb _); [discipline|].
    destruct (App.get_or_404 _ _ _); discipline.
  - destruct (negb (PyStr.truthy_opt _)); [discipline|].
    destruct (App.get_or_404 _ _ _) as [b|]; [|discipline].
    destruct (negb (PyStr.truthy _)); [discipline|].
    destruct (PyFloat.float _) as [x|]; [|discipline].
    fold (out_of_bounds x). destruct (out_of_bounds x); [discipline|].
    cbv zeta. rewrite commit_assign_rating.
    destruct (ok && _) eqn:Hc; [apply andb_true_iff in Hc as [-> _]|]; discipline.
Qed.

Lemma delete_disciplined pk (req : Request) (ok : bool) (tbl : gmap Z Row) :
  method req = POST ->
  disciplined req ok tbl (App.delete pk req (Session.start tbl) ok).
Proof.
  intros Hm. unfold App.delete.
  destruct (negb _); [discipline|].
  destruct (App.get_or_404 _ _ _) as [b|]; [|discipline].
  cbv zeta. rewrite commit_delete. destruct ok; discipline.
Qed.

Lemma dispatch_disciplined pk (req : Request) (ok : bool) (tbl : gmap Z Row) :
  disciplined req ok tbl (App.dispatch pk req (Session.start tbl) ok).
Proof.
  unfold App.dispatch.
  destruct (String.eqb (path req) (url_for Home)).
  { destruct (method req); discipline. }
  destruct (String.eqb (path req) (url_for Add)); [apply add_disciplined|].
  destruct (String.eqb (path req) (url_for Edit)); [apply edit_disciplined|].
  destruct (String.eqb (path req) (url_for Delete)); [|discipline].
  destruct (method req) eqn:Hm; [discipline | now apply delete_disciplined].
Qed.

(** X2: whatever the request, the table stored after it is the table stored
    before it, unless the request is a POST whose commit went through and
    which is answered by a redirect to the list view with one flashed
    message of category [success]. In particular a GET, a failed commit, an
    aborted request and a request answered with an error message write
    nothing. *)
Theorem writes_come_with_a_success pk (req : Request) (ok : bool) (tbl : gmap Z Row) :
  let o := App.dispatch pk req (Session.start tbl) ok in
  (App.serve pk req ok tbl = tbl
   \/ (method req = POST /\ ok = true /\ response o = redirect (url_for Home)
       /\ exists message, flashed o = [(message, "success")]))
  /\ (method req = GET -> App.serve pk req ok tbl = tbl)
  /\ (ok = false -> App.serve pk req ok tbl = tbl)
  /\ (forall status, response o = abort status -> App.serve pk req ok tbl = tbl)
  /\ (forall message, flashed o = [(message, "error")] ->
        App.serve pk req ok tbl = tbl).
Proof.
  intros o. unfold App.serve. fold o.
  destruct (dispatch_disciplined pk req ok tbl) as (Hone & Habort & Hsucc & Hkeep).
  fold o in Hone, Habort, Hsucc, Hkeep.
  assert (Hcases : (forall message, flashed o <> [(message, "success")])
                   \/ exists message, flashed o = [(message, "success")]).
  { destruct Hone as [E|[m [E|E]]].
    - left. intros m. rewrite E. discriminate.
    - left. intros m'. rewrite E. discriminate.
    - right. now exists m. }
  assert (Hwrite : Session.database (session o) <> tbl ->
                   exists message, flashed o = [(message, "success")]).
  { intros Hne. destruct Hcases as [Hno|Hyes]; [|exact Hyes].
    now destruct (Hne (Hkeep Hno)). }
  split; [|repeat split].
  - destruct Hcases as [Hno|Hyes]; [left; now apply Hkeep|].
    right. destruct (Hsucc Hyes) as (Hr & Hm & Hok). now repeat split.
  - intros Hget. destruct Hcases as [Hno|Hyes]; [now apply Hkeep|].
    destruct (Hsucc Hyes) as (_ & Hm & _). congruence.
  - intros Hfail. destruct Hcases as [Hno|Hyes]; [now apply Hkeep|].
    destruct (Hsucc Hyes) as (_ & _ & Hok). congruence.
  - intros status Hab. destruct Hcases as [Hno|Hyes]; [now apply Hkeep|].
    destruct (Hsucc Hyes) as (Hr & _ & _). congruence.
  - intros message Herr. apply Hkeep. intros m'. rewrite Herr. discriminate.
Qed.

Lemma writes_come_with_a_success_witness :
  App.serve decimal_pk (get_request "/add" [("title", "Dune")]) true {[1 := dune]}
    = {[1 := dune]}
  /\ App.serve decimal_pk (edit_form "1" "7") false {[1 := dune]} = {[1 := dune]}
  /\ App.serve decimal_pk (edit_form "8" "7") true {[1 := dune]} = {[1 := dune]}
  /\ App.serve decimal_pk (edit_form "1" "70") true {[1 := dune]} = {[1 := dune]}.
Proof.
  split; [|split; [|split]].
  - apply (proj1 (proj2 (writes_come_with_a_success decimal_pk
             (get_request "/add" [("title", "Dune")]) true {[1 := dune]}))).
    reflexivity.
  - apply (proj1 (proj2 (proj2 (writes_come_with_a_success decimal_pk
             (edit_form "1" "7") false {[1 := dune]})))).
    reflexivity.
  - apply (proj1 (proj2 (proj2 (proj2 (writes_come_with_a_success decimal_pk
             (edit_form "8" "7") true {[1 := dune]})))) 404).
    reflexivity.
  - apply (proj2 (proj2 (proj2 (proj2 (writes_come_with_a_success decimal_pk
             (edit_form "1" "70") true {[1 := dune]}))))
             "Rating must be between 0 and 10.").
    vm_compute. reflexivity.
Defined.

(** X3: every request flashes at most one message, whose category is
    [error] or [success]; a request that is aborted flashes none and leaves
    the table as it was. *)
Theorem one_flash_at_most pk (req : Request) (ok : bool) (tbl : gmap Z Row) :
  let o := App.dispatch pk req (Session.start tbl) ok in
  (flashed o = []
   \/ exists message,
        flashed o = [(message, "error")] \/ flashed o = [(message, "success")])
  /\ (forall status, response o = abort status ->
        flashed o = [] /\ Session.database (session o) = tbl).
Proof.
  intros o.
  destruct (dispatch_disciplined pk req ok tbl) as (Hone & Habort & _ & Hkeep).
  split; [exact Hone|].
  intros status Hab. destruct (Habort status Hab) as [Hnil _].
  split; [exact Hnil|]. apply Hkeep. intros message.
  rewrite Hnil. discriminate.
Qed.



(** ** The footprint of one request *)

Lemma size_alter_row (f : Row -> Row) (k : Z) (tbl : gmap Z Row) :
  size (alter f k tbl) = size tbl.
Proof.
  rewrite <- (size_dom (D := gset Z) (alter f k tbl)),
    <- (size_dom (D := gset Z) tbl).
  now rewrite dom_alter_L.
Qed.

Lemma effect_footprint (tbl tbl' : gmap Z Row) :
  effect tbl tbl' ->
  (exists k0, forall k, k <> k0 -> tbl' !! k = tbl !! k)
  /\ (size tbl' <= S (size tbl) /\ size tbl <= S (size tbl'))%nat
  /\ (forall k r r', tbl !! k = Some r -> tbl' !! k = Some r' ->
        row_title r' = row_title r /\ row_author r' = row_author r).
Proof.
  intros [|r0 _ _|k0 x _|k0].
  - split; [exists 0; reflexivity|]. split; [lia|].
    intros k r r' Hk Hk'. now simplify_eq.
  - split; [|split].
    + exists (Session.next_id tbl). intros k Hk. now rewrite lookup_insert_ne.
    + rewrite map_size_insert_None by apply next_id_fresh. lia.
    + intros k r r' Hk Hk'.
      rewrite lookup_insert_ne in Hk'; [now simplify_eq|].
      intros <-. now rewrite next_id_fresh in Hk.
  - split; [|split].
    + exists k0. intros k Hk. now rewrite lookup_alter_ne.
    + rewrite size_alter_row. lia.
    + intros k r r' Hk Hk'. rewrite lookup_alter in Hk'.
      case_decide as Hkk; [subst k0|now simplify_eq].
      rewrite Hk in Hk'. simpl in Hk'. injection Hk' as <-. now split.
  - split; [|split].
    + exists k0. intros k Hk. now rewrite lookup_delete_ne.
    + rewrite map_size_delete. destruct (tbl !! k0); simpl; lia.
    + intros k r r' Hk Hk'. rewrite lookup_delete in Hk'.
      case_decide; [discriminate|]. now simplify_eq.
Qed.

(** X4: one request touches at most one key of the table: all keys but one
    hold after it what they held before it, and the number of rows moves by
    at most one. *)
Theorem request_touches_one_key pk (req : Request) (ok : bool) (tbl : gmap Z Row) :
  (exists k0, forall k, k <> k0 -> App.serve pk req ok tbl !! k = tbl !! k)
  /\ (size (App.serve pk req ok tbl) <= S (size tbl))%nat
  /\ (size tbl <= S (size (App.serve pk req ok tbl)))%nat.
Proof.
  destruct (effect_footprint tbl _ (serve_effect pk req ok tbl))
    as (Hframe & [Hup Hdown] & _).
  now repeat split.
Qed.

(** X5: no request changes the title or the author of a stored row: a key
    that holds a row before and after a request holds the same title and the
    same author. *)
Theorem title_and_author_are_kept pk (req : Request) (ok : bool) (tbl : gmap Z Row)
    (k : Z) (r r' : Row) :
  tbl !! k = Some r ->
  App.serve pk req ok tbl !! k = Some r' ->
  row_title r' = row_title r /\ row_author r' = row_author r.
Proof.
  intros Hk Hk'.
  destruct (effect_footprint tbl _ (serve_effect pk req ok tbl)) as (_ & _ & Hsame).
  exact (Hsame k r r' Hk Hk').
Qed.

Lemma title_and_author_are_kept_witness :
  row_title (set_rating (S754_finite false 7881299347898368 (-50)) dune) = "Dune"
  /\ row_author (set_rating (S754_finite false 7881299347898368 (-50)) dune)
     = "Frank Herbert".
Proof.
  apply (title_and_author_are_kept decimal_pk (edit_form "1" "7") true {[1 := dune]}
           1 dune (set_rating (S754_finite false 7881299347898368 (-50)) dune));
    vm_compute; reflexivity.
Defined.

(** ** The list view after a write *)

Lemma elem_of_listing (s : Session.t) (b : Book) :
  b ∈ Session.select_order_by_title s <->
  exists k r, Session.pending s !! k = Some r /\ b = load k r.
Proof.
  unfold Session.select_order_by_title.
  rewrite (merge_sort_Permutation title_le (Session.books s)).
  apply elem_of_books.
Qed.

Lemma length_listing (s : Session.t) :
  length (Session.select_order_by_title s) = size (Session.pending s).
Proof.
  unfold Session.select_order_by_title.
  rewrite (merge_sort_Permutation title_le (Session.books s)).
  unfold Session.books. rewrite length_fmap. apply length_map_to_list.
Qed.

(** ** A successful add *)

Lemma add_succeeds (req : Request) (tbl : gmap Z Row) (ok : bool) (message : string) :
  flashed (App.add req (Session.start tbl) ok) = [(message, "success")] ->
  exists x,
    method req = POST
    /\ ok = true
    /\ PyStr.strip (default "" (get "title" (form req))) <> ""
    /\ PyStr.strip (default "" (get "author" (form req))) <> ""
    /\ PyFloat.float (PyStr.strip (default "" (get "rating" (form req)))) = Some x
    /\ out_of_bounds x = false
    /\ x <> S754_nan
    /\ (forall k r, tbl !! k = Some r ->
          row_title r <> PyStr.strip (default "" (get "title" (form req))))
    /\ App.add req (Session.start tbl) ok
       = {| response := redirect (url_for Home);
            flashed := [("Book added successfully!", "success")];
            session :=
              Session.start
                (<[Session.next_id tbl :=
                     {| row_title := PyStr.strip (default "" (get "title" (form req)));
                        row_author := PyStr.strip (default "" (get "author" (form req)));
                        row_rating := Session.real x |}]> tbl) |}.
Proof.
  unfold App.add. destruct (method req) eqn:Hm; [discriminate|].
  destruct (negb _ || negb _ || negb _) eqn:Hfields; [discriminate|].
  apply orb_false_elim in Hfields as [Hfields Hr].
  apply orb_false_elim in Hfields as [Ht Ha].
  apply negb_false_iff, truthy_nonempty in Ht, Ha.
  destruct (PyFloat.float _) as [x|] eqn:Hx; [|discriminate].
  fold (out_of_bounds x). destruct (out_of_bounds x) eqn:Hb; [discriminate|].
  destruct (scalar_one_or_none _) eqn:Hsel; [|discriminate..].
  apply scalar_NoRow in Hsel.
  cbv zeta. rewrite commit_add.
  destruct (ok && _) eqn:Hc; [|discriminate].
  apply andb_true_iff in Hc as [-> Hnn%not_null_rating]. simpl. intros _.
  exists x. repeat split; try assumption.
  exact (proj1 (select_where_title_nil _ (Session.start tbl)) Hsel).
Qed.

(** X6: when [add] flashes "Book added successfully!", the table has gained
    exactly one row, under a key that was free: it holds the title and the
    author of the form stripped of surrounding blanks, and the float read
    from the rating text as the rating column keeps it (a zero without its
    sign), which lies between 0 and 10; every row stored before is still
    there unchanged, and the list view then shows one book more, the new one
    among them. *)
Theorem add_stores_one_new_row (req : Request) (tbl : gmap Z Row) (ok : bool) :
  flashed (App.add req (Session.start tbl) ok)
    = [("Book added successfully!", "success")] ->
  let s' := session (App.add req (Session.start tbl) ok) in
  let tbl' := Session.database s' in
  exists new x,
    PyFloat.float (PyStr.strip (default "" (get "rating" (form req)))) = Some x
    /\ in_range x = true
    /\ tbl !! new = None
    /\ tbl' !! new
       = Some {| row_title := PyStr.strip (default "" (get "title" (form req)));
                 row_author := PyStr.strip (default "" (get "author" (form req)));
                 row_rating :=
                   match x with S754_zero _ => S754_zero false | _ => x end |}
    /\ (forall k, k <> new -> tbl' !! k = tbl !! k)
    /\ size tbl' = S (size tbl)
    /\ length (Session.select_order_by_title (Session.start tbl')) = S (size tbl)
    /\ {| id := new;
          title := PyStr.strip (default "" (get "title" (form req)));
          author := PyStr.strip (default "" (get "author" (form req)));
          rating := match x with S754_zero _ => S754_zero false | _ => x end |}
       ∈ Session.select_order_by_title (Session.start tbl').
Proof.
  intros Hok s' tbl'.
  destruct (add_succeeds req tbl ok _ Hok)
    as (x & _ & _ & _ & _ & Hx & Hb & Hnan & _ & Heq).
  unfold tbl', s'. rewrite Heq. simpl.
  exists (Session.next_id tbl), x.
  pose proof (next_id_fresh tbl) as Hfresh.
  repeat split; try assumption.
  - now apply accepted_rating_in_range.
  - apply lookup_insert_eq.
  - intros k Hk. now rewrite lookup_insert_ne.
  - now apply map_size_insert_None.
  - rewrite length_listing. simpl. now apply map_size_insert_None.
  - apply elem_of_listing. simpl. eexists _, _. split; [apply lookup_insert_eq|].
    reflexivity.
Qed.

Lemma add_stores_one_new_row_witness :
  exists new x,
    PyFloat.float "-0.0" = Some x
    /\ ({[1 := dune]} : gmap Z Row) !! new = None
    /\ Session.database
         (session (App.add (add_form " Emma " "Jane Austen" "-0.0")
                     (Session.start {[1 := dune]}) true)) !! new
       = Some {| row_title := "Emma"; row_author := "Jane Austen";
                 row_rating := S754_zero false |}.
Proof.
  assert (Hok : flashed (App.add (add_form " Emma " "Jane Austen" "-0.0")
                           (Session.start {[1 := dune]}) true)
                = [("Book added successfully!", "success")])
    by (vm_compute; reflexivity).
  destruct (add_stores_one_new_row (add_form " Emma " "Jane Austen" "-0.0")
              {[1 := dune]} true Hok)
    as (new & x & Hx & _ & Hfree & Hnew & _).
  exists new, x. repeat split; try assumption.
  rewrite Hnew. vm_compute in Hx. injection Hx as <-. reflexivity.
Defined.

(** ** A successful delete *)

Lemma delete_succeeds pk (req : Request) (tbl : gmap Z Row) (ok : bool)
    (message : string) :
  flashed (App.delete pk req (Session.start tbl) ok) = [(message, "success")] ->
  exists book_id k r,
    get "id" (form req) = Some book_id
    /\ PyStr.truthy book_id = true
    /\ resolves pk book_id tbl k r
    /\ ok = true
    /\ Session.database (session (App.delete pk req (Session.start tbl) ok))
       = base.delete k tbl.
Proof.
  unfold App.delete.
  destruct (PyStr.truthy_opt (get "id" (form req))) eqn:Hid; [|discriminate].
  apply truthy_opt_Some in Hid as (book_id & Hid & Htruthy & ->). simpl.
  destruct (App.get_or_404 _ _ _) as [b|] eqn:Hget; [|discriminate].
  apply get_or_404_Some in Hget as (k & r & Hres & ->).
  destruct ok; [|discriminate]. simpl. intros _.
  now exists book_id, k, r.
Qed.

(** X7: when [delete] flashes a success, exactly one stored row is gone: its
    key is free afterwards, every other key holds what it held, the table
    is one row shorter, and the list view shows one book less, none of them
    under the removed key. *)
Theorem delete_removes_one_row pk (req : Request) (tbl : gmap Z Row) (ok : bool)
    (message : string) :
  flashed (App.delete pk req (Session.start tbl) ok) = [(message, "success")] ->
  let tbl' := Session.database (session (App.delete pk req (Session.start tbl) ok)) in
  exists k r,
    tbl !! k = Some r
    /\ tbl' !! k = None
    /\ (forall k', k' <> k -> tbl' !! k' = tbl !! k')
    /\ size tbl = S (size tbl')
    /\ S (length (Session.select_order_by_title (Session.start tbl'))) = size tbl
    /\ (forall b, b ∈ Session.select_order_by_title (Session.start tbl') -> id b <> k).
Proof.
  intros Hok tbl'.
  destruct (delete_succeeds pk req tbl ok message Hok)
    as (book_id & k & r & _ & _ & [_ Hk] & _ & Hdb).
  unfold tbl'. rewrite Hdb.
  assert (Hsize : size tbl = S (size (base.delete k tbl))).
  { rewrite map_size_delete, Hk.
    assert (size tbl <> 0%nat) by (intros E%map_size_empty_inv; now subst).
    simpl. lia. }
  exists k, r. repeat split.
  - exact Hk.
  - apply lookup_delete_eq.
  - intros k' Hk'. now apply lookup_delete_ne.
  - exact Hsize.
  - rewrite length_listing. simpl. now rewrite <- Hsize.
  - intros b (k' & r' & Hk' & ->)%elem_of_listing. simpl in *.
    intros ->. now rewrite lookup_delete_eq in Hk'.
Qed.

Lemma delete_removes_one_row_witness :
  exists k r,
    ({[1 := dune]} : gmap Z Row) !! k = Some r
    /\ Session.database
         (session (App.delete decimal_pk (post "/delete" [("id", "1")])
                     (Session.start {[1 := dune]}) true)) !! k = None.
Proof.
  assert (Hok : flashed (App.delete decimal_pk (post "/delete" [("id", "1")])
                           (Session.start {[1 := dune]}) true)
                = [("'Dune' has been deleted successfully!", "success")])
    by (vm_compute; reflexivity).
  destruct (delete_removes_one_row decimal_pk (post "/delete" [("id", "1")])
              {[1 := dune]} true _ Hok)
    as (k & r & Hk & Hgone & _).
  now exists k, r.
Defined.

(** X8: deleting the book that was just added gives back the table as it
    was before the add: if [add] succeeded on a table, a [delete] whose
    identifier names the new key, and whose commit goes through, leaves
    exactly that table. *)
Theorem add_then_delete_restores pk (added removed : Request) (tbl : gmap Z Row)
    (book_id : string) :
  flashed (App.add added (Session.start tbl) true)
    = [("Book added successfully!", "success")] ->
  get "id" (form removed) = Some book_id ->
  PyStr.truthy book_id = true ->
  pk book_id = Some (Session.next_id tbl) ->
  let tbl' := Session.database (session (App.add added (Session.start tbl) true)) in
  Session.database (session (App.delete pk removed (Session.start tbl') true)) = tbl.
Proof.
  intros Hok Hid Htruthy Hpk tbl'.
  destruct (add_succeeds added tbl true _ Hok)
    as (x & _ & _ & _ & _ & _ & _ & _ & _ & Heq).
  unfold tbl'. rewrite Heq. simpl.
  erewrite (delete_resolved pk removed _ true book_id (Session.next_id tbl));
    [|exact Hid | exact Htruthy | split; [exact Hpk | apply lookup_insert_eq]].
  simpl. rewrite delete_insert_eq. apply delete_id, next_id_fresh.
Qed.

Lemma add_then_delete_restores_witness :
  Session.database
    (session (App.delete decimal_pk (post "/delete" [("id", "2")])
                (Session.start
                   (Session.database
                      (session (App.add (add_form "Emma" "Jane Austen" "8")
                                  (Session.start {[1 := dune]}) true)))) true))
  = {[1 := dune]}.
Proof.
  apply (add_then_delete_restores decimal_pk (add_form "Emma" "Jane Austen" "8")
           (post "/delete" [("id", "2")]) {[1 := dune]} "2");
    vm_compute; reflexivity.
Defined.

(** ** What the stored rows look like *)

(** Where a row stored after a request comes from: it was there before with
    the same title and author, or it was built by [add] from non-empty
    stripped fields of the form. *)
Lemma serve_row_origin pk (req : Request) (ok : bool) (tbl : gmap Z Row)
    (k : Z) (r' : Row) :
  App.serve pk req ok tbl !! k = Some r' ->
  (exists r, tbl !! k = Some r
             /\ row_title r' = row_title r /\ row_author r' = row_author r)
  \/ (row_title r' = PyStr.strip (default "" (get "title" (form req)))
      /\ row_author r' = PyStr.strip (default "" (get "author" (form req)))
      /\ row_title r' <> "" /\ row_author r' <> "").
Proof.
  intros Hk'. destruct (tbl !! k) as [r|] eqn:Hk.
  { left. exists r. split; [reflexivity|].
    destruct (effect_footprint tbl _ (serve_effect pk req ok tbl)) as (_ & _ & Hsame).
    exact (Hsame k r r' Hk Hk'). }
  right.
  destruct (serve_new_key pk req ok tbl k Hk) as [Hpath Hm]; [now rewrite Hk'|].
  unfold App.serve, App.dispatch in Hk'. rewrite Hpath in Hk'. simpl in Hk'.
  destruct (add_disciplined req ok tbl) as (Hone & _ & _ & Hkeep).
  assert (Hflash : exists message,
             flashed (App.add req (Session.start tbl) ok) = [(message, "success")]).
  { destruct Hone as [E|[m [E|E]]]; [| |now exists m];
      rewrite Hkeep in Hk' by (intros m'; rewrite E; discriminate); congruence. }
  destruct Hflash as [message Hflash].
  destruct (add_succeeds req tbl ok message Hflash)
    as (x & _ & _ & Ht & Ha & _ & _ & _ & _ & Heq).
  rewrite Heq in Hk'. simpl in Hk'. rewrite lookup_insert in Hk'.
  case_decide; [|congruence]. injection Hk' as <-. now repeat split.
Qed.

(** X9: in every table that requests can produce, each row has a non-empty
    title and a non-empty author, neither of which starts or ends with a
    blank: stripping them again changes nothing. *)
Theorem stored_texts_are_stripped pk (tbl : gmap Z Row) (k : Z) (r : Row) :
  App.reachable pk tbl ->
  tbl !! k = Some r ->
  row_title r <> "" /\ row_author r <> ""
  /\ PyStr.strip (row_title r) = row_title r
  /\ PyStr.strip (row_author r) = row_author r.
Proof.
  intros Hreach. revert k r.
  induction Hreach as [|tbl req ok _ IH]; intros k r Hk.
  - now rewrite lookup_empty in Hk.
  - destruct (serve_row_origin pk req ok tbl k r Hk)
      as [(r0 & Hk0 & Ht & Ha)|(Ht & Ha & Hnt & Hna)].
    + rewrite Ht, Ha. exact (IH k r0 Hk0).
    + repeat split; try assumption.
      * rewrite Ht. apply strip_idempotent.
      * rewrite Ha. apply strip_idempotent.
Qed.

Lemma stored_texts_are_stripped_witness :
  PyStr.strip "Dune" = "Dune" /\ PyStr.strip "Frank Herbert" = "Frank Herbert".
Proof.
  apply (stored_texts_are_stripped decimal_pk
           (App.serve decimal_pk (add_form "  Dune " "Frank Herbert  " "9.5") true ∅)
           1 dune).
  - apply App.reachable_serve, App.reachable_empty.
  - vm_compute. reflexivity.
Defined.

(** X10: in every table that requests can produce, a stored rating is a NaN
    or lies between 0 and 10; it is never an infinity. *)
Theorem stored_ratings_are_bounded_or_nan pk (tbl : gmap Z Row) (k : Z) (r : Row) :
  App.reachable pk tbl ->
  tbl !! k = Some r ->
  (row_rating r = S754_nan \/ in_range (row_rating r) = true)
  /\ (forall sign, row_rating r <> S754_infinity sign).
Proof.
  intros Hreach Hk.
  pose proof (reachable_ratings pk tbl Hreach k r Hk) as Hb.
  split; [now apply passes_bounds|].
  intros sign E. rewrite E in Hb. unfold out_of_bounds in Hb.
  rewrite of_int_0, of_int_10 in Hb. now destruct sign.
Qed.

Lemma stored_ratings_are_bounded_or_nan_witness :
  (row_rating dune = S754_nan \/ in_range (row_rating dune) = true)
  /\ (forall sign, row_rating dune <> S754_infinity sign).
Proof.
  apply (stored_ratings_are_bounded_or_nan decimal_pk
           (App.serve decimal_pk (add_form "Dune" "Frank Herbert" "9.5") true ∅) 1).
  - apply App.reachable_serve, App.reachable_empty.
  - vm_compute. reflexivity.
Defined.

(** ** Requests that are aborted *)

Lemma scalar_unique (x : string) (s : Session.t) :
  unique_titles (Session.pending s) ->
  scalar_one_or_none (Session.select_where_title x s) <> MultipleResultsFound.
Proof.
  intros Huniq.
  destruct (Session.select_where_title x s) as [|b l] eqn:Hsel; [discriminate|].
  assert (Hin : b ∈ Session.select_where_title x s) by (rewrite Hsel; left).
  apply elem_of_select_where_title in Hin as (k & r & Hk & _ & Ht).
  rewrite (select_where_title_one x s k r Huniq Hk Ht) in Hsel.
  injection Hsel as _ <-. discriminate.
Qed.

(** X11: on a table that requests can produce, no request is answered by
    an abort with 500: the duplicate query of [add] never finds two rows. *)
Theorem reachable_tables_never_abort_500 pk (tbl : gmap Z Row) (req : Request)
    (ok : bool) :
  App.reachable pk tbl ->
  response (App.dispatch pk req (Session.start tbl) ok) <> abort 500.
Proof.
  intros Hreach%reachable_unique_titles. unfold App.dispatch.
  destruct (String.eqb (path req) (url_for Home)).
  { destruct (method req); discriminate. }
  destruct (String.eqb (path req) (url_for Add)).
  { unfold App.add. destruct (method req); [discriminate|].
    destruct (negb _ || negb _ || negb _); [discriminate|].
    destruct (PyFloat.float _) as [x|]; [|discriminate].
    fold (out_of_bounds x). destruct (out_of_bounds x); [discriminate|].
    pose proof (scalar_unique
                  (PyStr.strip (default "" (get "title" (form req))))
                  (Session.start tbl) Hreach) as Hone.
    destruct (scalar_one_or_none _); [|discriminate|contradiction].
    cbv zeta. rewrite commit_add. destruct (ok && _); discriminate. }
  destruct (String.eqb (path req) (url_for Edit)).
  { unfold App.edit. destruct (method req).
    - destruct (negb _); [discriminate|].
      destruct (App.get_or_404 _ _ _); discriminate.
    - destruct (negb (PyStr.truthy_opt _)); [discriminate|].
      destruct (App.get_or_404 _ _ _) as [b|]; [|discriminate].
      destruct (negb (PyStr.truthy _)); [discriminate|].
      destruct (PyFloat.float _) as [x|]; [|discriminate].
      fold (out_of_bounds x). destruct (out_of_bounds x); [discriminate|].
      cbv zeta. rewrite commit_assign_rating. destruct (ok && _); discriminate. }
  destruct (String.eqb (path req) (url_for Delete)); [|discriminate].
  destruct (method req); [discriminate|].
  unfold App.delete. destruct (negb _); [discriminate|].
  destruct (App.get_or_404 _ _ _) as [b|]; [|discriminate].
  cbv zeta. rewrite commit_delete. destruct ok; discriminate.
Qed.

Lemma reachable_tables_never_abort_500_witness :
  response
    (App.dispatch decimal_pk (add_form "Dune" "F. Herbert" "8")
       (Session.start
          (App.serve decimal_pk (add_form "Dune" "Frank Herbert" "9.5") true ∅))
       true)
  <> abort 500.
Proof.
  apply (reachable_tables_never_abort_500 decimal_pk
           (App.serve decimal_pk (add_form "Dune" "Frank Herbert" "9.5") true ∅)
           (add_form "Dune" "F. Herbert" "8") true).
  apply App.reachable_serve, App.reachable_empty.
Defined.

(** ** The edit form, missing identifiers, failed commits *)

(** X12: a GET to [edit] whose identifier names a stored row renders the
    edit form with that row as it is stored (key, title, author, rating),
    flashes nothing and leaves the session alone, whatever the form fields
    of the request hold; the book shown is one of those the list view
    shows. *)
Theorem edit_get_shows_stored_book pk (req : Request) (tbl : gmap Z Row) (ok : bool)
    (book_id : string) (k : Z) (r : Row) :
  method req = GET ->
  get "id" (args req) = Some book_id ->
  PyStr.truthy book_id = true ->
  resolves pk book_id tbl k r ->
  App.edit pk req (Session.start tbl) ok
  = {| response :=
         render_template "edit_rating.html"
           (WithBook {| id := k; title := row_title r; author := row_author r;
                        rating := row_rating r |});
       flashed := [];
       session := Session.start tbl |}
  /\ {| id := k; title := row_title r; author := row_author r;
        rating := row_rating r |}
     ∈ Session.select_order_by_title (Session.start tbl).
Proof.
  intros Hm Hid Htruthy Hres. split.
  - apply get_or_404_resolves in Hres.
    unfold App.edit. rewrite Hm, Hid. simpl. rewrite Htruthy. simpl.
    now rewrite Hres.
  - apply elem_of_listing. exists k, r. split; [apply Hres | reflexivity].
Qed.

Lemma edit_get_shows_stored_book_witness :
  App.edit decimal_pk (get_request "/edit" [("id", "1")]) (Session.start {[1 := dune]})
    true
  = {| response := render_template "edit_rating.html" (WithBook (load 1 dune));
       flashed := [];
       session := Session.start {[1 := dune]} |}.
Proof.
  apply (edit_get_shows_stored_book decimal_pk (get_request "/edit" [("id", "1")])
           {[1 := dune]} true "1" 1 dune);
    [reflexivity | reflexivity | reflexivity | split; reflexivity].
Defined.

(** X13: an identifier that is absent or empty is refused before anything
    is looked up: [edit] (in the form of a POST, in the query of a GET) and
    [delete] redirect to the list view, flash "Invalid book ID." as an
    error and leave the session alone, also when the storage layer would
    find a row for the empty text. *)
Theorem missing_id_is_refused pk (req : Request) (s : Session.t) (ok : bool) :
  let refused :=
    {| response := redirect (url_for Home);
       flashed := [("Invalid book ID.", "error")];
       session := s |} in
  (method req = POST ->
   get "id" (form req) = None \/ get "id" (form req) = Some "" ->
   App.edit pk req s ok = refused)
  /\ (method req = GET ->
      get "id" (args req) = None \/ get "id" (args req) = Some "" ->
      App.edit pk req s ok = refused)
  /\ (get "id" (form req) = None \/ get "id" (form req) = Some "" ->
      App.delete pk req s ok = refused).
Proof.
  intros refused. repeat split.
  - intros Hm [Hid|Hid]; unfold App.edit; now rewrite Hm, Hid.
  - intros Hm [Hid|Hid]; unfold App.edit; now rewrite Hm, Hid.
  - intros [Hid|Hid]; unfold App.delete; now rewrite Hid.
Qed.

Lemma missing_id_is_refused_witness :
  App.edit (fun _ => Some 1) (edit_form "" "7") (Session.start {[1 := dune]}) true
  = {| response := redirect "/";
       flashed := [("Invalid book ID.", "error")];
       session := Session.start {[1 := dune]} |}
  /\ App.delete (fun _ => Some 1) (post "/delete" []) (Session.start {[1 := dune]})
       true
     = {| response := redirect "/";
          flashed := [("Invalid book ID.", "error")];
          session := Session.start {[1 := dune]} |}.
Proof.
  split.
  - apply (proj1 (missing_id_is_refused (fun _ => Some 1) (edit_form "" "7")
                    (Session.start {[1 := dune]}) true));
      [reflexivity | right; reflexivity].
  - apply (proj2 (proj2 (missing_id_is_refused (fun _ => Some 1) (post "/delete" [])
                           (Session.start {[1 := dune]}) true))).
    left. reflexivity.
Defined.

(** X14: when the commit raises, each view rolls back and reports a general
    error, and the table is as before. [add] (fields in order, title free)
    shows the add form again; [edit] (row found, rating accepted by the
    bounds test) and [delete] (row found) redirect to the list view. *)
Theorem failed_commit_is_rolled_back pk (req : Request) (tbl : gmap Z Row) :
  let failed (r : Response) (message : string) :=
    {| response := r; flashed := [(message, "error")];
       session := Session.start tbl |} in
  (forall x,
     method req = POST ->
     PyStr.strip (default "" (get "title" (form req))) <> "" ->
     PyStr.strip (default "" (get "author" (form req))) <> "" ->
     PyFloat.float (PyStr.strip (default "" (get "rating" (form req)))) = Some x ->
     out_of_bounds x = false ->
     (forall k r, tbl !! k = Some r ->
        row_title r <> PyStr.strip (default "" (get "title" (form req)))) ->
     App.add req (Session.start tbl) false
     = failed (render_template "add.html" NoContext)
         "An error occurred while adding the book.")
  /\ (forall book_id k r x,
        method req = POST ->
        get "id" (form req) = Some book_id ->
        PyStr.truthy book_id = true ->
        resolves pk book_id tbl k r ->
        PyFloat.float (PyStr.strip (default "" (get "rating" (form req)))) = Some x ->
        out_of_bounds x = false ->
        App.edit pk req (Session.start tbl) false
        = failed (redirect (url_for Home))
            "An error occurred while updating the rating.")
  /\ (forall book_id k r,
        get "id" (form req) = Some book_id ->
        PyStr.truthy book_id = true ->
        resolves pk book_id tbl k r ->
        App.delete pk req (Session.start tbl) false
        = failed (redirect (url_for Home))
            "An error occurred while deleting the book.").
Proof.
  intros failed. split; [|split].
  - intros x Hm Ht Ha Hx Hb Hfree.
    assert (Hr : PyStr.strip (default "" (get "rating" (form req))) <> "")
      by (intros E; now rewrite E in Hx).
    destruct (add_validation_order req tbl false Hm) as [_ Hchecks].
    destruct (Hchecks Ht Ha Hr) as [_ Hnum].
    destruct (Hnum x Hx) as [_ Hbounds].
    destruct (Hbounds Hb) as [_ Hnew].
    exact (Hnew Hfree).
  - intros book_id k r x Hm Hid Htruthy Hres Hx Hb.
    rewrite (edit_post_resolved pk req tbl false book_id k r Hm Hid Htruthy Hres).
    cbv zeta. rewrite Hx, Hb.
    assert (negb (PyStr.truthy (PyStr.strip (default "" (get "rating" (form req)))))
            = false) as ->; [|reflexivity].
    destruct (PyStr.strip _); [discriminate Hx | reflexivity].
  - intros book_id k r Hid Htruthy Hres.
    now rewrite (delete_resolved pk req tbl false book_id k r).
Qed.

Lemma failed_commit_is_rolled_back_witness :
  App.add (add_form "Emma" "Jane Austen" "8") (Session.start {[1 := dune]}) false
  = {| response := render_template "add.html" NoContext;
       flashed := [("An error occurred while adding the book.", "error")];
       session := Session.start {[1 := dune]} |}
  /\ App.edit decimal_pk (edit_form "1" "7") (Session.start {[1 := dune]}) false
     = {| response := redirect "/";
          flashed := [("An error occurred while updating the rating.", "error")];
          session := Session.start {[1 := dune]} |}
  /\ App.delete decimal_pk (post "/delete" [("id", "1")]) (Session.start {[1 := dune]})
       false
     = {| response := redirect "/";
          flashed := [("An error occurred while deleting the book.", "error")];
          session := Session.start {[1 := dune]} |}.
Proof.
  assert (Hres : resolves decimal_pk "1" {[1 := dune]} 1 dune) by (split; reflexivity).
  split; [|split].
  - apply (proj1 (failed_commit_is_rolled_back decimal_pk
                    (add_form "Emma" "Jane Austen" "8") {[1 := dune]})
             (S754_finite false 4503599627370496 (-49)));
      [reflexivity | discriminate | discriminate | vm_compute; reflexivity
      | vm_compute; reflexivity |].
    intros k r Hk E. apply lookup_singleton_Some in Hk as [_ <-]. discriminate E.
  - apply (proj1 (proj2 (failed_commit_is_rolled_back decimal_pk
                           (edit_form "1" "7") {[1 := dune]}))
             "1" 1 dune (S754_finite false 7881299347898368 (-50)));
      [reflexivity | reflexivity | reflexivity | exact Hres | vm_compute; reflexivity
      | vm_compute; reflexivity].
  - apply (proj2 (proj2 (failed_commit_is_rolled_back decimal_pk
                           (post "/delete" [("id", "1")]) {[1 := dune]}))
             "1" 1 dune); [reflexivity | reflexivity | exact Hres].
Defined.

(** ** Editing twice *)

Lemma set_rating_twice (x y : spec_float) (k : Z) (tbl : gmap Z Row) :
  alter (set_rating y) k (alter (set_rating x) k tbl) = alter (set_rating y) k tbl.
Proof.
  apply map_eq. intros j. rewrite !lookup_alter.
  case_decide as Hkj; [|reflexivity]. rewrite decide_True by reflexivity.
  now destruct (tbl !! k).
Qed.

(** X15: the last edit wins: after two successful edits of the same book,
    the table is the one the second edit alone would have left. *)
Theorem last_edit_wins pk (first second : Request) (tbl : gmap Z Row) :
  get "id" (form first) = get "id" (form second) ->
  flashed (App.edit pk first (Session.start tbl) true)
    = [("Rating updated successfully!", "success")] ->
  let tbl1 := Session.database (session (App.edit pk first (Session.start tbl) true)) in
  flashed (App.edit pk second (Session.start tbl1) true)
    = [("Rating updated successfully!", "success")] ->
  Session.database (session (App.edit pk second (Session.start tbl1) true))
  = Session.database (session (App.edit pk second (Session.start tbl) true)).
Proof.
  intros Hsame Hok1 tbl1 Hok2.
  destruct (edit_succeeds pk first tbl true Hok1)
    as (id1 & k1 & r1 & x1 & _ & _ & Hid1 & _ & [Hpk1 Hk1] & _ & _ & _ & Hdb1).
  destruct (edit_succeeds pk second tbl1 true Hok2)
    as (id2 & k2 & r2 & x2 & Hm2 & _ & Hid2 & Ht2 & [Hpk2 Hk2] & Hx2 & Hb2 & Hnan2
        & Hdb2).
  assert (id1 = id2) as -> by congruence.
  assert (k1 = k2) as -> by congruence.
  rewrite Hdb2. unfold tbl1. rewrite Hdb1. simpl. rewrite set_rating_twice.
  assert (Heq := edit_post_resolved pk second tbl true id2 k2 r1 Hm2 Hid2 Ht2
                   (conj Hpk2 Hk1)).
  cbv zeta in Heq. rewrite Hx2, Hb2 in Heq.
  assert (Hne : negb (PyStr.truthy
                        (PyStr.strip (default "" (get "rating" (form second)))))
                = false)
    by (destruct (PyStr.strip _); [discriminate Hx2 | reflexivity]).
  rewrite Hne in Heq.
  assert (Session.not_null (set_rating x2 r1) = true) as Hnn
    by (destruct r1; now apply not_null_rating).
  rewrite Hnn in Heq. simpl in Heq. now rewrite Heq.
Qed.

Lemma last_edit_wins_witness :
  Session.database
    (session (App.edit decimal_pk (edit_form "1" "7")
                (Session.start
                   (Session.database
                      (session (App.edit decimal_pk (edit_form "1" "3")
                                  (Session.start {[1 := dune]}) true)))) true))
  = Session.database
      (session (App.edit decimal_pk (edit_form "1" "7") (Session.start {[1 := dune]})
                  true)).
Proof.
  apply (last_edit_wins decimal_pk (edit_form "1" "3") (edit_form "1" "7")
           {[1 := dune]}); vm_compute; reflexivity.
Defined.
